(** * Prediction pipeline of the powergrid backend

    A shallow embedding of [backend/services/ml_service.py] and
    [backend/services/prediction_service.py]: feature normalisation, the
    two inference paths of [MLService.predict], the risk and confidence
    assessors, retraining, and the rule-based fallback of
    [PredictionService].

    Conventions of the embedding.
    - A Python dict with string keys is a [gmap string _]; iteration order
      is not observable in any modelled function.
    - A JSON scalar is a [PyVal].  Python floats are modelled by exact
      rationals [Q]: every modelled computation on them is a comparison
      with a constant, a sum of small integers, one quotient or one
      rounding, so the thresholds and bounds proved here do not depend on
      binary rounding.  NaN and infinities are not values of the model.
    - A call that may raise returns a [PyResult]; code that mutates the
      service object threads an [MLService] record through a small
      state-and-exception monad.
    - scikit-learn, pandas, joblib and the file system are outside the
      repository: their calls are the fields of a [Host] record that the
      methods take as an argument, so every theorem stated for an
      arbitrary host holds for any behaviour of those libraries. *)

From Stdlib Require Import QArith Qround Lqa Lia Ascii.
From Stdlib Require String.
From stdpp Require Import gmap strings pretty.

Local Open Scope string_scope.

(** ** Python values, exceptions and results *)

Inductive PyVal : Type :=
| PyNone
| PyBool (b : bool)
| PyInt (z : Z)
| PyFloat (q : Q)
| PyStr (s : string).

Inductive PyExn : Type :=
| TypeError
| ValueError
| KeyError (key : string)
| ZeroDivisionError
| IndexError
| LibraryError (msg : string).

Inductive PyResult (A : Type) : Type :=
| Ok (a : A)
| Raise (e : PyExn).
Arguments Ok {A} a.
Arguments Raise {A} e.

Definition res_bind {A B} (r : PyResult A) (k : A -> PyResult B) : PyResult B :=
  match r with
  | Ok a => k a
  | Raise e => Raise e
  end.

Notation "x <-! r ; k" := (res_bind r (fun x => k))
  (at level 100, r at next level, right associativity).

Definition raises {A} (r : PyResult A) : Prop := exists e, r = Raise e.

(** ** Comparisons on rationals, as booleans *)

Definition Qltb (x y : Q) : bool :=
  match (x ?= y)%Q with Lt => true | _ => false end.
Definition Qleb (x y : Q) : bool :=
  match (x ?= y)%Q with Gt => false | _ => true end.
Definition Qgtb (x y : Q) : bool := Qltb y x.
Definition Qgeb (x y : Q) : bool := Qleb y x.

(** [max] and [min] of Python on two numbers: [max a b] returns [b] only
    when [b > a], [min a b] returns [b] only when [b < a]. *)
Definition py_max (a b : Q) : Q := if Qgtb b a then b else a.
Definition py_min (a b : Q) : Q := if Qltb b a then b else a.

(** ** [MLService._assess_risk]: the basic risk assessor

    [predictions] is the dict built by the fallback path of [predict]:
    every value stored in it is the result of a [float(...)] call. *)

Module BasicRisk.

Definition get0 (predictions : gmap string Q) (key : string) : Q :=
  default 0%Q (predictions !! key).

Definition cost_overrun_points (predictions : gmap string Q) : Z :=
  if Qgtb (get0 predictions "cost_overrun_pct") 20 then 3
  else if Qgtb (get0 predictions "cost_overrun_pct") 10 then 2
  else if Qgtb (get0 predictions "cost_overrun_pct") 5 then 1
  else 0.

Definition delay_points (predictions : gmap string Q) : Z :=
  if Qgtb (get0 predictions "delay_months") 6 then 3
  else if Qgtb (get0 predictions "delay_months") 3 then 2
  else if Qgtb (get0 predictions "delay_months") 1 then 1
  else 0.

(** The local [risk_score] just before the categorisation. *)
Definition risk_score (predictions : gmap string Q) : Z :=
  (0 + cost_overrun_points predictions + delay_points predictions)%Z.

Definition categorize (score : Z) : string :=
  if (5 <=? score)%Z then "High"
  else if (3 <=? score)%Z then "Medium"
  else "Low".

Definition _assess_risk (predictions : gmap string Q) : string :=
  categorize (risk_score predictions).

(** The order Low <= Medium <= High (<= Critical) on level names. *)
Definition level_rank (level : string) : nat :=
  if bool_decide (level = "Low") then 0
  else if bool_decide (level = "Medium") then 1
  else if bool_decide (level = "High") then 2
  else 3.

End BasicRisk.

(** ** Python builtins on JSON scalars *)

(** The numeric value of a number; [bool] is a subclass of [int]. *)
Definition py_num (v : PyVal) : PyResult Q :=
  match v with
  | PyBool b => Ok (if b then 1%Q else 0%Q)
  | PyInt z => Ok (inject_Z z)
  | PyFloat q => Ok q
  | PyNone | PyStr _ => Raise TypeError
  end.

(** [v > c] and [v < c] against a numeric constant: ordering [None] or a
    [str] against a number raises [TypeError]. *)
Definition py_gt (v : PyVal) (c : Q) : PyResult bool := x <-! py_num v ; Ok (Qgtb x c).
Definition py_lt (v : PyVal) (c : Q) : PyResult bool := x <-! py_num v ; Ok (Qltb x c).

(** Truth value of a scalar, as tested by [and] and [if]. *)
Definition py_truthy (v : PyVal) : bool :=
  match v with
  | PyNone => false
  | PyBool b => b
  | PyInt z => negb (z =? 0)%Z
  | PyFloat q => negb (Qeq_bool q 0)
  | PyStr s => negb (bool_decide (s = ""))
  end.

(** [d.get(key, default)] and [d.get(key)]. *)
Definition dict_get (d : gmap string PyVal) (key : string) (dflt : PyVal) : PyVal :=
  default dflt (d !! key).
Definition dict_get_none (d : gmap string PyVal) (key : string) : PyVal :=
  dict_get d key PyNone.

(** [key in d and d[key] is not None]. *)
Definition present_not_none (d : gmap string PyVal) (key : string) : bool :=
  match d !! key with
  | Some PyNone => false
  | Some _ => true
  | None => false
  end.

(** [table.get(value, dflt)] for a table with string keys: a value that is
    not a string equals none of the keys. *)
Definition table_get {A} (table : list (string * A)) (value : PyVal) (dflt : A) : A :=
  match value with
  | PyStr s => default dflt (snd <$> find (fun entry => bool_decide (fst entry = s)) table)
  | _ => dflt
  end.

(** [round(x, 1)]: to the nearest tenth, ties to the even neighbour. *)
Definition round_half_even (y : Q) : Z :=
  let f := Qfloor y in
  match (y - inject_Z f ?= 1 # 2)%Q with
  | Lt => f
  | Gt => (f + 1)%Z
  | Eq => if Z.even f then f else (f + 1)%Z
  end.

Definition py_round1 (x : Q) : Q :=
  (inject_Z (round_half_even (x * 10)) / 10)%Q.

(** ** The confidence assessors and the production risk assessor *)

Module Assessors.

Definition key_features : list string :=
  ["Base_Cost_Cr"; "Vendor_Reliability"; "Material_Availability_Index";
   "Skilled_Manpower_pct"; "Planned_Timeline_months"].

Definition completeness_factors (features : gmap string PyVal) : list nat :=
  (fun feature => if present_not_none features feature then 1 else 0) <$> key_features.

Definition base_confidence (features : gmap string PyVal) : Q :=
  (inject_Z (Z.of_nat (sum_list (completeness_factors features)))
   / inject_Z (Z.of_nat (length (completeness_factors features))) * 100)%Q.

Definition bonus (b : bool) (points : Q) : Q := if b then points else 0%Q.

(** [MLService._calculate_confidence]. *)
Definition _calculate_confidence (features : gmap string PyVal) : PyResult Q :=
  vendor <-! py_gt (dict_get features "Vendor_Reliability" (PyInt 0)) (8 # 10) ;
  material <-! py_gt (dict_get features "Material_Availability_Index" (PyInt 0)) (8 # 10) ;
  history <-! py_lt (dict_get features "Historical_Delay_Count" (PyInt 0)) 3 ;
  let quality_adjustments := (0 + bonus vendor 5 + bonus material 5 + bonus history 5)%Q in
  let final_confidence := py_min 100 (base_confidence features + quality_adjustments) in
  Ok (py_round1 final_confidence).

Definition required_features : list string :=
  ["projectType"; "state"; "baseCost"; "plannedTimeline";
   "vendorReliability"; "materialAvailability"].

Definition completeness_score (features : gmap string PyVal) : nat :=
  length (filter (fun feature => present_not_none features feature = true) required_features).

Definition completeness_ratio (features : gmap string PyVal) : Q :=
  (inject_Z (Z.of_nat (completeness_score features))
   / inject_Z (Z.of_nat (length required_features)))%Q.

(** The 15/10/5/0 tiers of vendor reliability and material availability. *)
Definition tier_15_10_5 (x : Q) : Q :=
  if Qgeb x (8 # 10) then 15
  else if Qgeb x (6 # 10) then 10
  else if Qgeb x (4 # 10) then 5
  else 0.

Definition tier_env (x : Q) : Q :=
  if Qleb x (3 # 10) then 10 else if Qleb x (5 # 10) then 5 else 0.

Definition tier_hist (x : Q) : Q :=
  if Qleb x 2 then 10 else if Qleb x 5 then 5 else 0.

(** [features.get('latitude') and features.get('longitude')]. *)
Definition has_geo (features : gmap string PyVal) : bool :=
  py_truthy (dict_get_none features "latitude")
  && py_truthy (dict_get_none features "longitude").

(** What the geographic test appends to [confidence_factors]. *)
Definition geo_points (features : gmap string PyVal) : list Q :=
  if has_geo features then [5%Q] else [].

Definition sum_Q (l : list Q) : Q := foldr Qplus 0%Q l.

(** The list [confidence_factors] at the end of
    [_calculate_production_confidence]. *)
Definition confidence_factors (features : gmap string PyVal) : PyResult (list Q) :=
  vendor_rel <-! py_num (dict_get features "vendorReliability" (PyInt 0)) ;
  material_avail <-! py_num (dict_get features "materialAvailability" (PyInt 0)) ;
  env_risk <-! py_num (dict_get features "envRisk" (PyFloat (3 # 10))) ;
  hist_delay <-! py_num (dict_get features "historicalDelay" (PyInt 1)) ;
  let quality_score :=
    (0 + tier_15_10_5 vendor_rel + tier_15_10_5 material_avail
     + tier_env env_risk + tier_hist hist_delay)%Q in
  Ok (app [(completeness_ratio features * 40)%Q; quality_score]
           (geo_points features)).

(** [MLService._calculate_production_confidence]. *)
Definition _calculate_production_confidence (features : gmap string PyVal) : PyResult Q :=
  factors <-! confidence_factors features ;
  Ok (py_round1 (py_min 100 (sum_Q factors))).

End Assessors.

(** ** Predicates used in the statements *)

(** A number in the sense of Python arithmetic: [bool], [int] or [float]. *)
Definition is_number (v : PyVal) : Prop :=
  match v with
  | PyBool _ | PyInt _ | PyFloat _ => True
  | PyNone | PyStr _ => False
  end.

(** The value stored under [key], if any, is a number. *)
Definition numeric_if_present (d : gmap string PyVal) (key : string) : Prop :=
  forall v, d !! key = Some v -> is_number v.





(** ** [PredictionService._convert_to_ml_format]: the feature normaliser *)

Module Normalizer.

Definition field_mapping : list (string * string) :=
  [("projectType", "Project_Type");
   ("terrainType", "Terrain");
   ("baseEstimatedCost", "Base_Cost_Cr");
   ("steelPriceIndex", "Steel_Price_Index");
   ("cementPriceIndex", "Cement_Price_Index");
   ("labourWageRate", "Labour_Wage_RsPerDay");
   ("regulatoryDelayEstimate", "Regulatory_Delay_months");
   ("historicalDelayPattern", "Historical_Delay_Count");
   ("annualRainfall", "Avg_Annual_Rainfall_cm");
   ("vendorReliabilityScore", "Vendor_Reliability");
   ("materialAvailabilityIndex", "Material_Availability_Index");
   ("demandSupplyPressure", "Demand_Supply_Pressure");
   ("skilledManpowerAvailability", "Skilled_Manpower_pct");
   ("plannedTimelineMonths", "Planned_Timeline_months")].

Definition type_mapping : list (string * PyVal) :=
  [("substation", PyStr "Substation");
   ("overhead-line", PyStr "Overhead Line");
   ("underground-cable", PyStr "Underground Cable")].

Definition terrain_mapping : list (string * PyVal) :=
  [("plains", PyStr "Plains"); ("hilly", PyStr "Hilly"); ("desert", PyStr "Desert");
   ("coastal", PyStr "Coastal"); ("urban", PyStr "Urban");
   ("mountainous", PyStr "Mountainous")].

Definition pressure_mapping : list (string * PyVal) :=
  [("low", PyStr "Low"); ("medium", PyStr "Medium"); ("high", PyStr "High")].

Definition delay_mapping : list (string * PyVal) :=
  [("low", PyInt 1); ("medium", PyInt 3); ("high", PyInt 5)].

(** The four special conversions and the pass-through [else] branch. *)
Definition convert_field (frontend_key : string) (value : PyVal) : PyVal :=
  if bool_decide (frontend_key = "projectType") then
    table_get type_mapping value (PyStr "Substation")
  else if bool_decide (frontend_key = "terrainType") then
    table_get terrain_mapping value (PyStr "Plains")
  else if bool_decide (frontend_key = "demandSupplyPressure") then
    table_get pressure_mapping value (PyStr "Medium")
  else if bool_decide (frontend_key = "historicalDelayPattern") then
    table_get delay_mapping value (PyInt 3)
  else value.

(** One iteration of the loop over [field_mapping.items()]. *)
Definition map_field (project_data ml_features : gmap string PyVal)
    (entry : string * string) : gmap string PyVal :=
  match project_data !! entry.1 with
  | Some value => <[entry.2 := convert_field entry.1 value]> ml_features
  | None => ml_features
  end.

Definition map_fields (project_data : gmap string PyVal) : gmap string PyVal :=
  foldl (map_field project_data) ∅ field_mapping.

Definition defaults : list (string * PyVal) :=
  [("Steel_Price_Index", PyInt 100);
   ("Cement_Price_Index", PyInt 100);
   ("Regulatory_Delay_months", PyInt 0);
   ("Historical_Delay_Count", PyInt 3);
   ("Avg_Annual_Rainfall_cm", PyInt 100);
   ("Demand_Supply_Pressure", PyStr "Medium");
   ("Planned_Timeline_months", PyInt 12)].

(** One iteration of the loop over [defaults.items()]. *)
Definition fill_default (ml_features : gmap string PyVal)
    (entry : string * PyVal) : gmap string PyVal :=
  match ml_features !! entry.1 with
  | None => <[entry.1 := entry.2]> ml_features
  | Some _ => ml_features
  end.

Definition _convert_to_ml_format (project_data : gmap string PyVal) : gmap string PyVal :=
  foldl fill_default (map_fields project_data) defaults.





End Normalizer.

(** ** [PredictionService._fallback_predictions]: the rule-based fallback *)

(** A cell of the one-row frame handed to a production pipeline. *)
Inductive Cell : Type :=
| CStr (s : string)
| CNum (x : Q).

(** A value of the dict returned by [predict]. *)
Inductive OutVal : Type :=
| OFloat (x : Q)
| OStr (s : string)
| ORisk (level : string) (score : Z) (factors : list string).

(** The [predictions] entry of a response. *)
Record Predictions : Type := {
  cost_overrun_probability : Q;
  predicted_delay_months : Q;
  predicted_total_cost : Q;
  predicted_timeline_months : Q;
  risk_category : OutVal;
  confidence_score : OutVal
}.

(** The [analysis] entry of a response; [prediction_date] is the wall
    clock and is left out. *)
Record Analysis : Type := {
  model_version : string;
  data_completeness : Q;
  note : option string
}.

Record Recommendation : Type := {
  rec_type : string;
  rec_priority : string;
  rec_title : string;
  rec_description : string;
  rec_actions : list string
}.

Record RiskFactor : Type := {
  rf_factor : string;
  rf_severity : string;
  rf_impact : string;
  rf_mitigation : string
}.

Record Outcome : Type := {
  predictions : Predictions;
  recommendations : list Recommendation;
  risk_factors : gmap string (list RiskFactor);
  analysis : Analysis
}.

Module Fallback.

Definition required_fields : list string :=
  ["projectType"; "terrainType"; "baseEstimatedCost"; "labourWageRate";
   "vendorReliabilityScore"; "materialAvailabilityIndex"; "skilledManpowerAvailability"].

Definition optional_fields : list string :=
  ["steelPriceIndex"; "cementPriceIndex"; "regulatoryDelayEstimate";
   "annualRainfall"; "demandSupplyPressure"; "historicalDelayPattern"].

Definition count_present (project_data : gmap string PyVal) (fields : list string) : nat :=
  length (filter (fun field => present_not_none project_data field = true) fields).

(** [PredictionService._calculate_data_completeness]. *)
Definition _calculate_data_completeness (project_data : gmap string PyVal) : Q :=
  let required_score := count_present project_data required_fields in
  let optional_score := count_present project_data optional_fields in
  let total_score :=
    (inject_Z (Z.of_nat (required_score * 2 + optional_score))
     / inject_Z (Z.of_nat (length required_fields * 2 + length optional_fields)) * 100)%Q in
  py_round1 total_score.

Definition terrain_multipliers : list (string * Q) :=
  [("plains", 1%Q); ("hilly", 115 # 100); ("desert", 110 # 100);
   ("coastal", 120 # 100); ("urban", 125 # 100); ("mountainous", 135 # 100)].

Definition no_risk_factors : gmap string (list RiskFactor) :=
  {[ "financial_risks" := []; "operational_risks" := [];
     "environmental_risks" := []; "external_risks" := [] ]}.

Definition _fallback_predictions (project_data : gmap string PyVal) : PyResult Outcome :=
  let base_cost := dict_get project_data "baseEstimatedCost" (PyInt 1000) in
  let terrain := dict_get project_data "terrainType" (PyStr "plains") in
  let vendor_reliability := dict_get project_data "vendorReliabilityScore" (PyFloat (8 # 10)) in
  let terrain_factor := table_get terrain_multipliers terrain 1%Q in
  (* vendor_factor = 2.0 - vendor_reliability *)
  reliability <-! py_num vendor_reliability ;
  let vendor_factor := (2 - reliability)%Q in
  let cost_overrun :=
    py_max 0 (py_min 50 ((terrain_factor - 1) * 100 + (vendor_factor - 1) * 25)%Q) in
  let delay_months := py_max 0 ((terrain_factor - 1) * 12 + (vendor_factor - 1) * 6)%Q in
  let risk :=
    if Qgtb cost_overrun 20 || Qgtb delay_months 4 then "High"
    else if Qgtb cost_overrun 10 || Qgtb delay_months 2 then "Medium"
    else "Low" in
  (* base_cost * (1 + cost_overrun / 100) *)
  cost <-! py_num base_cost ;
  (* project_data.get('plannedTimelineMonths', 12) + delay_months *)
  planned <-! py_num (dict_get project_data "plannedTimelineMonths" (PyInt 12)) ;
  Ok {| predictions :=
          {| cost_overrun_probability := py_round1 cost_overrun;
             predicted_delay_months := py_round1 delay_months;
             predicted_total_cost := (cost * (1 + cost_overrun / 100))%Q;
             predicted_timeline_months := (planned + delay_months)%Q;
             risk_category := OStr risk;
             confidence_score := OFloat 60 |};
        recommendations := [];
        risk_factors := no_risk_factors;
        analysis :=
          {| model_version := "fallback-1.0";
             data_completeness := _calculate_data_completeness project_data;
             note := Some "Using fallback prediction logic" |} |}.



End Fallback.

(** ** The service object and its collaborators *)

(** ** [MLService._assess_production_risk] *)

Module ProductionRisk.

Definition get0 (predictions : gmap string Q) (key : string) : Q :=
  default 0%Q (predictions !! key).

(** One rule of the assessor: the points it adds and the factor it names. *)
Definition Rule : Type := Z * list string.

Definition no_rule : Rule := (0%Z, []).

Definition cost_rule (cost_pred : Q) : Rule :=
  if Qgtb cost_pred 200 then (3%Z, ["High cost prediction"])
  else if Qgtb cost_pred 100 then (2%Z, ["Medium cost prediction"])
  else no_rule.

Definition overrun_rule (overrun_pred : Q) : Rule :=
  if Qgtb overrun_pred 25 then (3%Z, ["High overrun risk"])
  else if Qgtb overrun_pred 10 then (2%Z, ["Medium overrun risk"])
  else no_rule.

Definition timeline_rule (timeline_pred planned_timeline : Q) : Rule :=
  if Qgtb timeline_pred (planned_timeline * (15 # 10)) then
    (3%Z, ["Significant timeline extension"])
  else if Qgtb timeline_pred (planned_timeline * (12 # 10)) then
    (2%Z, ["Moderate timeline extension"])
  else no_rule.

Definition env_rule (env_risk : Q) : Rule :=
  if Qgtb env_risk (7 # 10) then (2%Z, ["High environmental risk"]) else no_rule.

Definition vendor_rule (vendor_reliability : Q) : Rule :=
  if Qltb vendor_reliability (6 # 10) then (2%Z, ["Low vendor reliability"]) else no_rule.

Definition risk_level (risk_score : Z) : string :=
  if (6 <=? risk_score)%Z then "Critical"
  else if (4 <=? risk_score)%Z then "High"
  else if (2 <=? risk_score)%Z then "Medium"
  else "Low".

Definition _assess_production_risk (predictions : gmap string Q)
    (features : gmap string PyVal) : PyResult OutVal :=
  let cost := cost_rule (get0 predictions "cost_prediction") in
  let overrun := overrun_rule (get0 predictions "overrun_prediction") in
  planned_timeline <-! py_num (dict_get features "plannedTimeline" (PyInt 24)) ;
  let timeline := timeline_rule (get0 predictions "timeline_prediction") planned_timeline in
  env_risk <-! py_num (dict_get features "envRisk" (PyFloat (3 # 10))) ;
  vendor_reliability <-! py_num (dict_get features "vendorReliability" (PyFloat (8 # 10))) ;
  let rules := [cost; overrun; timeline; env_rule env_risk; vendor_rule vendor_reliability] in
  let risk_score := foldr Z.add 0%Z (fst <$> rules) in
  let risk_factors := concat (snd <$> rules) in
  Ok (ORisk (risk_level risk_score) risk_score risk_factors).

End ProductionRisk.

Section Service.

(** Objects of pandas and scikit-learn: data frames, the four arrays of
    [train_test_split], fitted estimators, label encoders, scalers and
    production pipelines. *)
Context {DataFrame Split Estimator Encoder Scaler Pipeline : Type}.

(** The calls that leave the repository.  Each field stands for the
    library call named in its comment. *)
Record Host : Type := {
  (* float(s) on a str: the parsed number, or None for ValueError *)
  str_to_float : string -> option Q;
  (* str(x) on a float *)
  float_repr : Q -> string;
  (* os.path.exists *)
  path_exists : string -> bool;
  (* the directory models/trained_models next to the services *)
  trained_models_dir : string;
  (* app.config['MODEL_DIR'] and app.config['DATASET_PATH'] *)
  model_dir : string;
  dataset_path : string;
  (* joblib.load on the four kinds of artifact *)
  joblib_load_pipeline : string -> PyResult Pipeline;
  joblib_load_model : string -> PyResult Estimator;
  joblib_load_scalers : string -> PyResult (gmap string Scaler);
  joblib_load_encoders : string -> PyResult (gmap string Encoder);
  joblib_load_feature_columns : string -> PyResult (list string);
  (* os.makedirs and the joblib.dump calls of save_models *)
  dump_artifacts : string -> gmap string Estimator -> gmap string Scaler ->
                   gmap string Encoder -> list string -> PyResult unit;
  (* pd.read_csv(path).dropna() *)
  read_csv_dropna : string -> PyResult DataFrame;
  (* the column expressions of _feature_engineering *)
  derive_columns : DataFrame -> PyResult DataFrame;
  (* df[columns].copy() and col in X.columns *)
  select_columns : DataFrame -> list string -> PyResult DataFrame;
  has_column : DataFrame -> string -> bool;
  (* LabelEncoder(), its fit_transform and transform on one column *)
  new_label_encoder : Encoder;
  encoder_fit_transform : Encoder -> DataFrame -> string -> PyResult (Encoder * DataFrame);
  encoder_transform : Encoder -> DataFrame -> string -> PyResult DataFrame;
  (* StandardScaler(), its fit_transform and transform on the numeric columns *)
  new_standard_scaler : Scaler;
  scaler_fit_transform : Scaler -> DataFrame -> list string -> PyResult (Scaler * DataFrame);
  scaler_transform : Scaler -> DataFrame -> list string -> PyResult DataFrame;
  (* y = df[target]; train_test_split(X, y, test_size=0.2, random_state=42) *)
  train_test_split : DataFrame -> DataFrame -> string -> PyResult Split;
  (* fit one candidate algorithm and score it: the model and its MSE *)
  fit_and_score : string -> Split -> PyResult (Estimator * Q);
  (* LinearRegression().fit *)
  fit_linear_regression : Split -> PyResult Estimator;
  (* best_model.predict(X_test) and _calculate_metrics *)
  evaluate_model : Estimator -> Split -> PyResult unit;
  (* MultiOutputRegressor(RandomForestRegressor(...)).fit(X, df[target_columns]) *)
  fit_multioutput : DataFrame -> DataFrame -> PyResult Estimator;
  (* model.predict(X.reshape(1, -1))[0] as the list of its outputs *)
  estimator_predict : Estimator -> list Q -> PyResult (list Q);
  (* float(pipeline.predict(features_df)[0]) *)
  pipeline_predict : Pipeline -> list (string * Cell) -> PyResult Q;
  (* the pandas and scikit-learn calls of _prepare_single_prediction_features *)
  single_row_features : list string -> gmap string Encoder -> gmap string Scaler ->
                        gmap string PyVal -> PyResult (list Q)
}.

(** The mutable attributes of an [MLService] instance.  [target_columns],
    [model_configs] and [pipeline_feature_names] are never assigned after
    construction and are the constants below. *)
Record MLService : Type := {
  models : gmap string Estimator;
  scalers : gmap string Scaler;
  encoders : gmap string Encoder;
  feature_columns : list string;
  models_loaded : bool;
  production_pipelines : gmap string Pipeline;
  production_models_loaded : bool
}.

Definition set_models (f : gmap string Estimator -> gmap string Estimator)
    (s : MLService) : MLService :=
  {| models := f (models s); scalers := scalers s; encoders := encoders s;
     feature_columns := feature_columns s; models_loaded := models_loaded s;
     production_pipelines := production_pipelines s;
     production_models_loaded := production_models_loaded s |}.

Definition set_scalers (f : gmap string Scaler -> gmap string Scaler)
    (s : MLService) : MLService :=
  {| models := models s; scalers := f (scalers s); encoders := encoders s;
     feature_columns := feature_columns s; models_loaded := models_loaded s;
     production_pipelines := production_pipelines s;
     production_models_loaded := production_models_loaded s |}.

Definition set_encoders (f : gmap string Encoder -> gmap string Encoder)
    (s : MLService) : MLService :=
  {| models := models s; scalers := scalers s; encoders := f (encoders s);
     feature_columns := feature_columns s; models_loaded := models_loaded s;
     production_pipelines := production_pipelines s;
     production_models_loaded := production_models_loaded s |}.

Definition set_feature_columns (columns : list string) (s : MLService) : MLService :=
  {| models := models s; scalers := scalers s; encoders := encoders s;
     feature_columns := columns; models_loaded := models_loaded s;
     production_pipelines := production_pipelines s;
     production_models_loaded := production_models_loaded s |}.

Definition set_models_loaded (b : bool) (s : MLService) : MLService :=
  {| models := models s; scalers := scalers s; encoders := encoders s;
     feature_columns := feature_columns s; models_loaded := b;
     production_pipelines := production_pipelines s;
     production_models_loaded := production_models_loaded s |}.

Definition set_production_pipelines (f : gmap string Pipeline -> gmap string Pipeline)
    (s : MLService) : MLService :=
  {| models := models s; scalers := scalers s; encoders := encoders s;
     feature_columns := feature_columns s; models_loaded := models_loaded s;
     production_pipelines := f (production_pipelines s);
     production_models_loaded := production_models_loaded s |}.

Definition set_production_models_loaded (b : bool) (s : MLService) : MLService :=
  {| models := models s; scalers := scalers s; encoders := encoders s;
     feature_columns := feature_columns s; models_loaded := models_loaded s;
     production_pipelines := production_pipelines s;
     production_models_loaded := b |}.

(** *** Methods: state passing with exceptions

    A method maps the service before the call to the service after it and
    either a result or the exception that escaped.  The service after a
    raise is the one at the point of the raise: assignments to attributes
    made before it stay. *)
Definition Method (A : Type) : Type := MLService -> MLService * PyResult A.

Definition ret {A} (a : A) : Method A := fun s => (s, Ok a).
Definition throw {A} (e : PyExn) : Method A := fun s => (s, Raise e).
Definition lift {A} (r : PyResult A) : Method A := fun s => (s, r).
Definition read {A} (f : MLService -> A) : Method A := fun s => (s, Ok (f s)).
Definition assign (f : MLService -> MLService) : Method unit := fun s => (f s, Ok tt).

Definition bind {A B} (m : Method A) (k : A -> Method B) : Method B :=
  fun s =>
    match m s with
    | (s', Ok a) => k a s'
    | (s', Raise e) => (s', Raise e)
    end.

(** [try: m except Exception as e: handler e]. *)
Definition try_except {A} (m : Method A) (handler : PyExn -> Method A) : Method A :=
  fun s =>
    match m s with
    | (s', Ok a) => (s', Ok a)
    | (s', Raise e) => handler e s'
    end.

(** A [for] loop whose body runs for its effect. *)
Fixpoint for_each {X} (items : list X) (body : X -> Method unit) : Method unit :=
  match items with
  | [] => ret tt
  | x :: rest => bind (body x) (fun _ => for_each rest body)
  end.

End Service.

Arguments Host : clear implicits.
Arguments MLService : clear implicits.
Arguments Method : clear implicits.

Notation "x <~ m ; k" := (bind m (fun x => k))
  (at level 100, m at next level, right associativity).
Notation "m ;; k" := (bind m (fun _ => k))
  (at level 100, right associativity).

(** ** The methods of [MLService] *)

Section Methods.

Context {DataFrame Split Estimator Encoder Scaler Pipeline : Type}.
Context (host : Host DataFrame Split Estimator Encoder Scaler Pipeline).

Local Abbreviation Service := (MLService Estimator Encoder Scaler Pipeline).
Local Abbreviation Method := (Method Estimator Encoder Scaler Pipeline).

(** [os.path.join] of a directory and a file name. *)
Definition path_join (dir file : string) : string := dir +:+ "/" +:+ file.

(** [float(v)]. *)
Definition py_float (v : PyVal) : PyResult Q :=
  match v with
  | PyNone => Raise TypeError
  | PyBool b => Ok (if b then 1%Q else 0%Q)
  | PyInt z => Ok (inject_Z z)
  | PyFloat q => Ok q
  | PyStr s =>
      match str_to_float host s with
      | Some q => Ok q
      | None => Raise ValueError
      end
  end.

(** [str(v)]. *)
Definition py_str (v : PyVal) : string :=
  match v with
  | PyNone => "None"
  | PyBool b => if b then "True" else "False"
  | PyInt z => pretty z
  | PyFloat q => float_repr host q
  | PyStr s => s
  end.

(** [a / b] on two floats. *)
Definition py_div (a b : Q) : PyResult Q :=
  if Qeq_bool b 0 then Raise ZeroDivisionError else Ok (a / b)%Q.

(** *** Construction and the production pipelines *)

Definition pipeline_files : list (string * string) :=
  [("cost_prediction", "cost_pipeline.pkl");
   ("overrun_prediction", "overrun_pipeline.pkl");
   ("timeline_prediction", "time_pipeline.pkl")].

Definition model_configs : list (string * string) :=
  [("cost_overrun", "Overrun_pct");
   ("delay_prediction", "Delay_months");
   ("cost_prediction", "Total_Cost_Cr");
   ("timeline_prediction", "Timeline_months")].

(** The attributes assigned by [__init__] before it loads the pipelines. *)
Definition fresh_service : Service :=
  {| models := ∅; scalers := ∅; encoders := ∅; feature_columns := [];
     models_loaded := false; production_pipelines := ∅;
     production_models_loaded := false |}.

Definition load_pipeline_file (entry : string * string) : Method unit :=
  let model_path := path_join (trained_models_dir host) entry.2 in
  if path_exists host model_path then
    match joblib_load_pipeline host model_path with
    | Ok pipeline => assign (set_production_pipelines (insert entry.1 pipeline))
    | Raise _ => ret tt
    end
  else ret tt.

Definition load_production_pipelines : Method unit :=
  try_except
    (for_each pipeline_files load_pipeline_file ;;
     pipelines <~ read production_pipelines ;
     if negb (size pipelines =? 0)%nat
     then assign (set_production_models_loaded true)
     else ret tt)
    (fun _ => assign (set_production_models_loaded false)).

Definition __init__ : Service := (load_production_pipelines fresh_service).1.

Definition is_production_ready (s : Service) : bool :=
  production_models_loaded s && (2 <=? size (production_pipelines s))%nat.

(** *** The production path of [predict] *)

(** The value of the [Cost_per_planned_month] entry. *)
Definition cost_per_planned_month (features : gmap string PyVal) : PyResult Q :=
  base_cost <-! py_float (dict_get features "baseCost" (PyFloat 100)) ;
  planned_timeline <-! py_float (dict_get features "plannedTimeline" (PyFloat 24)) ;
  py_div base_cost planned_timeline.

(** The numeric entries of the row other than [Cost_per_planned_month], in
    the order of the dict literal: column, key of the request, default. *)
Definition numeric_entries_before : list (string * string * Q) :=
  [("Latitude", "latitude", 190760 # 10000);
   ("Longitude", "longitude", 728777 # 10000)].

Definition numeric_entries_middle : list (string * string * Q) :=
  [("Base_Cost_Cr", "baseCost", 100%Q);
   ("Steel_Price_Index", "steelPrice", 100%Q);
   ("Cement_Price_Index", "cementPrice", 100%Q);
   ("Labour_Wage_RsPerDay", "labourWage", 500%Q);
   ("Regulatory_Delay_months", "regulatoryDelay", 2%Q);
   ("Historical_Delay_Count", "historicalDelay", 1%Q);
   ("Avg_Annual_Rainfall_cm", "rainfall", 120%Q);
   ("Vendor_Reliability", "vendorReliability", 8 # 10);
   ("Material_Availability_Index", "materialAvailability", 8 # 10)].

Definition numeric_entries_after : list (string * string * Q) :=
  [("Delay_months", "delayMonths", 0%Q);
   ("Planned_Timeline_months", "plannedTimeline", 24%Q)].

(** [float(features.get(key, default))] for each entry, left to right. *)
Fixpoint float_entries (features : gmap string PyVal) (entries : list (string * string * Q))
    : PyResult (list (string * Cell)) :=
  match entries with
  | [] => Ok []
  | (column, key, dflt) :: rest =>
      x <-! py_float (dict_get features key (PyFloat dflt)) ;
      cells <-! float_entries features rest ;
      Ok ((column, CNum x) :: cells)
  end.

Definition str_entry (features : gmap string PyVal) (column key dflt : string)
    : string * Cell :=
  (column, CStr (py_str (dict_get features key (PyStr dflt)))).

(** The dict literal of lines 312-333, one row of twenty columns. *)
Definition production_row (features : gmap string PyVal) : PyResult (list (string * Cell)) :=
  geo <-! float_entries features numeric_entries_before ;
  costs <-! float_entries features numeric_entries_middle ;
  skilled <-! py_float (dict_get features "skilledManpower" (PyFloat 70)) ;
  timeline <-! float_entries features numeric_entries_after ;
  per_month <-! cost_per_planned_month features ;
  env_risk <-! py_float (dict_get features "envRisk" (PyFloat (3 # 10))) ;
  Ok ([str_entry features "Project_Type" "projectType" "Overhead Line";
       str_entry features "State" "state" "Maharashtra"]
      ++ geo
      ++ [str_entry features "Terrain" "terrain" "Plains"]
      ++ costs
      ++ [str_entry features "Demand_Supply_Pressure" "demandSupplyPressure" "Medium";
          ("Skilled_Manpower_pct", CNum (skilled / 100))]
      ++ timeline
      ++ [("Cost_per_planned_month", CNum per_month);
          ("Env_Risk_Index", CNum env_risk)])%list.

Definition project_type_map : list (string * string) :=
  [("Transmission", "Overhead Line"); ("Distribution", "Underground Cable")].

Definition terrain_map : list (string * string) :=
  [("Plain", "Plains"); ("Hill", "Hilly"); ("Mountain", "Mountainous")].

(** [if df.loc[0, column] in table: df.loc[0, column] = table[...]]. *)
Definition fix_category (column : string) (table : list (string * string))
    (row : list (string * Cell)) : list (string * Cell) :=
  (fun entry : string * Cell =>
     match entry with
     | (name, CStr value) =>
         if bool_decide (name = column)
         then (name, CStr (table_get table (PyStr value) value))
         else entry
     | _ => entry
     end) <$> row.

Definition expected_features : list string :=
  ["Project_Type"; "State"; "Latitude"; "Longitude"; "Terrain";
   "Base_Cost_Cr"; "Steel_Price_Index"; "Cement_Price_Index";
   "Labour_Wage_RsPerDay"; "Regulatory_Delay_months";
   "Historical_Delay_Count"; "Avg_Annual_Rainfall_cm";
   "Vendor_Reliability"; "Material_Availability_Index";
   "Demand_Supply_Pressure"; "Skilled_Manpower_pct";
   "Delay_months"; "Planned_Timeline_months";
   "Cost_per_planned_month"; "Env_Risk_Index"].

(** [features_df[expected_features]]. *)
Fixpoint reindex (columns : list string) (row : list (string * Cell))
    : PyResult (list (string * Cell)) :=
  match columns with
  | [] => Ok []
  | column :: rest =>
      match find (fun entry => bool_decide (fst entry = column)) row with
      | Some entry => cells <-! reindex rest row ; Ok (entry :: cells)
      | None => Raise (KeyError column)
      end
  end.

Definition production_features_df (features : gmap string PyVal)
    : PyResult (list (string * Cell)) :=
  row <-! production_row features ;
  reindex expected_features
    (fix_category "Terrain" terrain_map (fix_category "Project_Type" project_type_map row)).

(** The loop over [self.production_pipelines.items()]: each key is
    written once, with the prediction or with 0.0 when the call raised. *)
Definition guarded_prediction (features_df : list (string * Cell)) (model : Pipeline) : Q :=
  match pipeline_predict host model features_df with
  | Ok pred => pred
  | Raise _ => 0%Q
  end.

Definition production_predictions (s : Service) (features_df : list (string * Cell))
    : gmap string Q :=
  guarded_prediction features_df <$> production_pipelines s.

Definition predict_production (s : Service) (features : gmap string PyVal)
    : PyResult (gmap string OutVal) :=
  features_df <-! production_features_df features ;
  Ok (OFloat <$> production_predictions s features_df).

(** The test that guards the production path of [predict]. *)
Definition uses_production (s : Service) : bool :=
  production_models_loaded s && (0 <? size (production_pipelines s))%nat.

End Methods.

(** *** Training, persistence and retraining *)

Section Training.

Context {DataFrame Split Estimator Encoder Scaler Pipeline : Type}.
Context (host : Host DataFrame Split Estimator Encoder Scaler Pipeline).

Local Abbreviation Service := (MLService Estimator Encoder Scaler Pipeline).
Local Abbreviation Method := (Method Estimator Encoder Scaler Pipeline).

(** [MLService._feature_engineering]: six column expressions of pandas. *)
Definition _feature_engineering (df : DataFrame) : PyResult DataFrame :=
  derive_columns host df.

(** [MLService.load_dataset]; its handler logs and re-raises. *)
Definition load_dataset (path : string) : PyResult DataFrame :=
  df <-! read_csv_dropna host path ;
  _feature_engineering df.

(** The local list [feature_columns] of [prepare_features]. *)
Definition training_feature_columns : list string :=
  ["Project_Type"; "Terrain"; "Base_Cost_Cr"; "Steel_Price_Index"; "Cement_Price_Index";
   "Labour_Wage_RsPerDay"; "Regulatory_Delay_months"; "Historical_Delay_Count";
   "Avg_Annual_Rainfall_cm"; "Vendor_Reliability"; "Material_Availability_Index";
   "Demand_Supply_Pressure"; "Skilled_Manpower_pct"; "Planned_Timeline_months";
   "Cost_per_Month"; "Wage_Cost_Ratio"; "Price_Volatility"; "Resource_Risk";
   "Terrain_Risk_Score"; "Project_Complexity"].

Definition categorical_columns : list string :=
  ["Project_Type"; "Terrain"; "Demand_Supply_Pressure"].

Definition numerical_columns : list string :=
  filter (fun col => col ∉ categorical_columns) training_feature_columns.

(** One iteration of the loop over [categorical_columns].  A new encoder
    is stored in [self.encoders] before it is fitted; fitting updates that
    object, and a fit that raises leaves the stored object behind. *)
Definition encode_column (X : DataFrame) (col : string) : Method DataFrame :=
  if has_column host X col then
    known <~ read encoders ;
    match known !! col with
    | None =>
        assign (set_encoders (insert col (new_label_encoder host))) ;;
        fitted <~ lift (encoder_fit_transform host (new_label_encoder host) X col) ;
        assign (set_encoders (insert col fitted.1)) ;;
        ret fitted.2
    | Some encoder => lift (encoder_transform host encoder X col)
    end
  else ret X.

Fixpoint encode_columns (X : DataFrame) (cols : list string) : Method DataFrame :=
  match cols with
  | [] => ret X
  | col :: rest => X' <~ encode_column X col ; encode_columns X' rest
  end.

Definition scale_columns (X : DataFrame) : Method DataFrame :=
  known <~ read scalers ;
  match known !! "scaler" with
  | None =>
      assign (set_scalers (insert "scaler" (new_standard_scaler host))) ;;
      fitted <~ lift (scaler_fit_transform host (new_standard_scaler host) X numerical_columns) ;
      assign (set_scalers (insert "scaler" fitted.1)) ;;
      ret fitted.2
  | Some scaler => lift (scaler_transform host scaler X numerical_columns)
  end.

(** [MLService.prepare_features]; its handler logs and re-raises. *)
Definition prepare_features (df : DataFrame) : Method DataFrame :=
  assign (set_feature_columns training_feature_columns) ;;
  X <~ lift (select_columns host df training_feature_columns) ;
  X <~ encode_columns X categorical_columns ;
  scale_columns X.

Definition models_to_try : list string :=
  ["RandomForest"; "GradientBoosting"; "XGBoost"; "LightGBM"].

(** One iteration of the loop over [models_to_try]: [best] is [None] while
    [best_score] is still infinite; a candidate that raises is skipped. *)
Definition try_candidate (split : Split) (best : option (Estimator * Q)) (name : string)
    : option (Estimator * Q) :=
  match fit_and_score host name split with
  | Ok (model, mse) =>
      match best with
      | None => Some (model, mse)
      | Some (_, best_score) => if Qltb mse best_score then Some (model, mse) else best
      end
  | Raise _ => best
  end.

(** [MLService._train_and_select_best_model]. *)
Definition _train_and_select_best_model (split : Split) : PyResult Estimator :=
  match foldl (try_candidate split) None models_to_try with
  | Some (best_model, _) => Ok best_model
  | None => fit_linear_regression host split
  end.

(** [MLService._train_multioutput_model]: its handler only logs. *)
Definition _train_multioutput_model (X df : DataFrame) : Method unit :=
  match fit_multioutput host X df with
  | Ok multi_model => assign (set_models (insert "multioutput" multi_model))
  | Raise _ => ret tt
  end.

(** [MLService.save_models] with its default directory. *)
Definition save_models : Method unit :=
  s <~ read id ;
  lift (dump_artifacts host (model_dir host) (models s) (scalers s) (encoders s)
          (feature_columns s)).

(** One iteration of the training loop of [train_models]. *)
Definition train_one (X df : DataFrame) (config : string * string) : Method unit :=
  split <~ lift (train_test_split host X df config.2) ;
  best_model <~ lift (_train_and_select_best_model split) ;
  assign (set_models (insert config.1 best_model)) ;;
  lift (evaluate_model host best_model split).

(** [MLService.train_models]; its handler logs and re-raises. *)
Definition train_models (path : string) (save : bool) : Method bool :=
  df <~ lift (load_dataset path) ;
  X <~ prepare_features df ;
  for_each model_configs (train_one X df) ;;
  _train_multioutput_model X df ;;
  (if save then save_models else ret tt) ;;
  assign (set_models_loaded true) ;;
  ret true.




(** One iteration of the loading loop of [load_models]. *)
Definition load_model_file (dir : string) (model_name : string) : Method unit :=
  let model_path := path_join dir (model_name +:+ "_model.pkl") in
  if path_exists host model_path then
    model <~ lift (joblib_load_model host model_path) ;
    assign (set_models (insert model_name model))
  else ret tt.

Definition load_artifacts (dir : string) : Method unit :=
  for_each (fst <$> model_configs) (load_model_file dir) ;;
  load_model_file dir "multioutput" ;;
  (if path_exists host (path_join dir "scalers.pkl") then
     loaded <~ lift (joblib_load_scalers host (path_join dir "scalers.pkl")) ;
     assign (set_scalers (fun _ => loaded))
   else ret tt) ;;
  (if path_exists host (path_join dir "encoders.pkl") then
     loaded <~ lift (joblib_load_encoders host (path_join dir "encoders.pkl")) ;
     assign (set_encoders (fun _ => loaded))
   else ret tt) ;;
  (if path_exists host (path_join dir "feature_columns.pkl") then
     loaded <~ lift (joblib_load_feature_columns host (path_join dir "feature_columns.pkl")) ;
     assign (set_feature_columns loaded)
   else ret tt) ;;
  assign (set_models_loaded true).

(** [MLService.load_models] with its default directory: a missing
    directory or a failed load falls back to training. *)
Definition load_models : Method unit :=
  try_except
    (if negb (path_exists host (model_dir host)) then
       train_models (dataset_path host) true ;; ret tt
     else load_artifacts (model_dir host))
    (fun _ => train_models (dataset_path host) true ;; ret tt).

End Training.

(** *** Inference *)

Section Inference.

Context {DataFrame Split Estimator Encoder Scaler Pipeline : Type}.
Context (host : Host DataFrame Split Estimator Encoder Scaler Pipeline).

Local Abbreviation Service := (MLService Estimator Encoder Scaler Pipeline).
Local Abbreviation Method := (Method Estimator Encoder Scaler Pipeline).

(** [multi_pred[i]] and [float(pred)] on the outputs of an estimator. *)
Definition output_at (outputs : list Q) (i : nat) : PyResult Q :=
  match outputs !! i with
  | Some x => Ok x
  | None => Raise IndexError
  end.

Definition output_scalar (outputs : list Q) : PyResult Q :=
  match outputs with
  | [x] => Ok x
  | _ => Raise TypeError
  end.

(** One iteration of the loop over [self.model_configs]. *)
Definition predict_configured (s : Service) (X : list Q)
    (acc : PyResult (gmap string Q)) (model_name : string) : PyResult (gmap string Q) :=
  predictions <-! acc ;
  match models s !! model_name with
  | Some model =>
      outputs <-! estimator_predict host model X ;
      pred <-! output_scalar outputs ;
      Ok (<[model_name := pred]> predictions)
  | None => Ok predictions
  end.

(** The numeric predictions of the fallback path, lines 379-401. *)
Definition fallback_predictions (s : Service) (X : list Q) (prediction_type : string)
    : PyResult (gmap string Q) :=
  if bool_decide (prediction_type = "all") then
    match models s !! "multioutput" with
    | Some multi =>
        multi_pred <-! estimator_predict host multi X ;
        delay <-! output_at multi_pred 0 ;
        overrun <-! output_at multi_pred 1 ;
        total <-! output_at multi_pred 2 ;
        timeline <-! output_at multi_pred 3 ;
        Ok {[ "delay_months" := delay; "cost_overrun_pct" := overrun;
              "total_cost_cr" := total; "timeline_months" := timeline ]}
    | None => foldl (predict_configured s X) (Ok ∅) (fst <$> model_configs)
    end
  else
    predict_configured s X (Ok ∅) prediction_type.

(** The fallback path of [predict], lines 371-407. *)
Definition predict_fallback (features : gmap string PyVal) (prediction_type : string)
    : Method (gmap string OutVal) :=
  loaded <~ read models_loaded ;
  (if negb loaded then load_models host else ret tt) ;;
  s <~ read id ;
  X <~ lift (single_row_features host (feature_columns s) (encoders s) (scalers s) features) ;
  predictions <~ lift (fallback_predictions s X prediction_type) ;
  let risk_assessment := BasicRisk._assess_risk predictions in
  confidence <~ lift (Assessors._calculate_confidence features) ;
  ret (<["confidence_score" := OFloat confidence]>
         (<["risk_assessment" := OStr risk_assessment]> (OFloat <$> predictions))).

(** [MLService.predict]; its handler logs and re-raises. *)
Definition predict (features : gmap string PyVal) (prediction_type : string)
    : Method (gmap string OutVal) :=
  s <~ read id ;
  if uses_production s then lift (predict_production host s features)
  else predict_fallback features prediction_type.

(** [MLService._prepare_production_features]: the same row with other
    defaults, a numeric demand-supply pressure, no category fix-up and no
    reordering. *)
Definition _prepare_production_features (project_data : gmap string PyVal)
    : PyResult (list (string * Cell)) :=
  geo <-! float_entries host project_data numeric_entries_before ;
  costs <-! float_entries host project_data
              [("Base_Cost_Cr", "baseCost", 100%Q);
               ("Steel_Price_Index", "steelPrice", 100%Q);
               ("Cement_Price_Index", "cementPrice", 100%Q);
               ("Labour_Wage_RsPerDay", "labourWage", 500%Q);
               ("Regulatory_Delay_months", "regulatoryDelay", 2%Q);
               ("Historical_Delay_Count", "historicalDelay", 1%Q);
               ("Delay_months", "delayMonths", 0%Q);
               ("Avg_Annual_Rainfall_cm", "rainfall", 120%Q);
               ("Env_Risk_Index", "envRisk", 3 # 10);
               ("Vendor_Reliability", "vendorReliability", 8 # 10);
               ("Material_Availability_Index", "materialAvailability", 8 # 10);
               ("Demand_Supply_Pressure", "demandSupplyPressure", 5 # 10)] ;
  skilled <-! py_float host (dict_get project_data "skilledManpower" (PyFloat 70)) ;
  planned <-! float_entries host project_data
                [("Planned_Timeline_months", "plannedTimeline", 24%Q)] ;
  per_month <-! cost_per_planned_month host project_data ;
  Ok ([str_entry host project_data "Project_Type" "projectType" "Transmission";
       str_entry host project_data "State" "state" "Maharashtra"]
      ++ geo
      ++ [str_entry host project_data "Terrain" "terrain" "Plain"]
      ++ costs
      ++ [("Skilled_Manpower_pct", CNum (skilled / 100))]
      ++ planned
      ++ [("Cost_per_planned_month", CNum per_month)])%list.

(** [MLService._predict_with_production_pipelines]; no method of the
    repository calls it. *)
Definition _predict_with_production_pipelines (s : Service)
    (features : gmap string PyVal) (prediction_type : string)
    : PyResult (gmap string OutVal) :=
  features_df <-! _prepare_production_features features ;
  let predictions :=
    if bool_decide (prediction_type = "all") then production_predictions host s features_df
    else match production_pipelines s !! prediction_type with
         | Some pipeline => {[ prediction_type := guarded_prediction host features_df pipeline ]}
         | None => ∅
         end in
  risk_assessment <-! ProductionRisk._assess_production_risk predictions features ;
  confidence <-! Assessors._calculate_production_confidence features ;
  Ok (<["model_source" := OStr "production_pipeline"]>
        (<["confidence_score" := OFloat confidence]>
           (<["risk_assessment" := risk_assessment]> (OFloat <$> predictions)))).

End Inference.

(** ** [PredictionService.predict_project_outcomes] *)

Section PredictionService.

Context {DataFrame Split Estimator Encoder Scaler Pipeline : Type}.
Context (host : Host DataFrame Split Estimator Encoder Scaler Pipeline).

(** [_generate_recommendations] and [_analyze_risk_factors] build texts
    from thresholds on their arguments; what they return is carried into
    the response as it is. *)
Context (_generate_recommendations :
           gmap string PyVal -> gmap string OutVal -> PyResult (list Recommendation)).
Context (_analyze_risk_factors :
           gmap string PyVal -> gmap string OutVal -> PyResult (gmap string (list RiskFactor))).

Local Abbreviation Method := (Method Estimator Encoder Scaler Pipeline).

(** A value of [predictions] used as a number. *)
Definition out_num (v : OutVal) : PyResult Q :=
  match v with
  | OFloat x => Ok x
  | OStr _ | ORisk _ _ _ => Raise TypeError
  end.

(** [predictions.get(key, 0)] as a number. *)
Definition out_get0 (predictions : gmap string OutVal) (key : string) : PyResult Q :=
  out_num (default (OFloat 0) (predictions !! key)).

(** The dict assembled at lines 45-63. *)
Definition format_response (project_data : gmap string PyVal)
    (ml_predictions : gmap string OutVal) (recs : list Recommendation)
    (factors : gmap string (list RiskFactor)) : PyResult Outcome :=
  overrun <-! out_get0 ml_predictions "cost_overrun_pct" ;
  delay <-! out_get0 ml_predictions "delay_months" ;
  base_cost <-! py_num (dict_get project_data "baseEstimatedCost" (PyInt 0)) ;
  total <-! out_get0 ml_predictions "total_cost_cr" ;
  timeline <-! match ml_predictions !! "timeline_months" with
               | Some v => out_num v
               | None => py_num (dict_get project_data "plannedTimelineMonths" (PyInt 12))
               end ;
  Ok {| predictions :=
          {| cost_overrun_probability := py_max 0 (py_min 100 overrun);
             predicted_delay_months := py_max 0 delay;
             predicted_total_cost := py_max base_cost total;
             predicted_timeline_months := py_max 1 timeline;
             risk_category := default (OStr "Medium") (ml_predictions !! "risk_assessment");
             confidence_score := default (OFloat 75) (ml_predictions !! "confidence_score") |};
        recommendations := recs;
        risk_factors := factors;
        analysis :=
          {| model_version := "1.0.0";
             data_completeness := Fallback._calculate_data_completeness project_data;
             note := None |} |}.

(** The body of the [try] block: the ML prediction path. *)
Definition ml_prediction_path (project_data : gmap string PyVal) : Method Outcome :=
  let ml_features := Normalizer._convert_to_ml_format project_data in
  ml_predictions <~ predict host ml_features "all" ;
  recs <~ lift (_generate_recommendations project_data ml_predictions) ;
  factors <~ lift (_analyze_risk_factors project_data ml_predictions) ;
  lift (format_response project_data ml_predictions recs factors).

Definition predict_project_outcomes (project_data : gmap string PyVal) : Method Outcome :=
  try_except (ml_prediction_path project_data)
             (fun _ => lift (Fallback._fallback_predictions project_data)).

End PredictionService.

(** What a call of [prepare_features] may change in the service: the
    estimators, the loaded flags and the production pipelines stay; the
    feature columns become the training columns; encoders and scalers
    that exist stay, missing ones may have been created. *)
Definition registry_after_prepare {Estimator Encoder Scaler Pipeline : Type}
    (s s1 : MLService Estimator Encoder Scaler Pipeline) : Prop :=
  models s1 = models s
  /\ models_loaded s1 = models_loaded s
  /\ production_pipelines s1 = production_pipelines s
  /\ production_models_loaded s1 = production_models_loaded s
  /\ feature_columns s1 = training_feature_columns
  /\ (forall col encoder, encoders s !! col = Some encoder -> encoders s1 !! col = Some encoder)
  /\ (forall key scaler, scalers s !! key = Some scaler -> scalers s1 !! key = Some scaler).

(** [prepare_features] up to the scaling step changes nothing but the
    encoders and scalers, and only by adding entries. *)
Definition preprocessors_added {Estimator Encoder Scaler Pipeline : Type}
    (s s1 : MLService Estimator Encoder Scaler Pipeline) : Prop :=
  models s1 = models s
  /\ models_loaded s1 = models_loaded s
  /\ production_pipelines s1 = production_pipelines s
  /\ production_models_loaded s1 = production_models_loaded s
  /\ feature_columns s1 = feature_columns s
  /\ (forall col encoder, encoders s !! col = Some encoder -> encoders s1 !! col = Some encoder)
  /\ (forall key scaler, scalers s !! key = Some scaler -> scalers s1 !! key = Some scaler).


(** ** A concrete host, to run the service on examples

    Frames and splits carry no data, an estimator is the list of outputs
    it predicts, an encoder or scaler records whether it has been fitted,
    and a pipeline is the answer of its [predict] on every frame. *)

Module Example.

Definition digit_value (c : Ascii.ascii) : option Z :=
  let n := Ascii.nat_of_ascii c in
  if (48 <=? n)%nat && (n <=? 57)%nat then Some (Z.of_nat (n - 48)) else None.

(** The digits of [s] read as a number, with their count. *)
Fixpoint parse_digits (s : string) (acc : Z) (count : nat) : option (Z * nat) :=
  match s with
  | EmptyString => Some (acc, count)
  | String c rest =>
      match digit_value c with
      | Some d => parse_digits rest (acc * 10 + d)%Z (S count)
      | None => None
      end
  end.

(** The text before the first dot, and the text after it if there is one. *)
Fixpoint split_dot (s : string) : string * option string :=
  match s with
  | EmptyString => (EmptyString, None)
  | String c rest =>
      if bool_decide (c = "."%char) then (EmptyString, Some rest)
      else let parts := split_dot rest in (String c parts.1, parts.2)
  end.

Definition parse_unsigned (s : string) : option Q :=
  let parts := split_dot s in
  match parse_digits parts.1 0 0, parts.2 with
  | Some (whole, n), None => if (n =? 0)%nat then None else Some (inject_Z whole)
  | Some (whole, n), Some fraction =>
      match parse_digits fraction 0 0 with
      | Some (part, m) =>
          if (n + m =? 0)%nat then None
          else Some (inject_Z whole + inject_Z part / inject_Z (10 ^ Z.of_nat m))%Q
      | None => None
      end
  | None, _ => None
  end.

(** Decimal literals with an optional sign: the part of the grammar of
    [float] that the examples use. *)
Definition parse_decimal (s : string) : option Q :=
  match s with
  | String "-" rest => Qopp <$> parse_unsigned rest
  | String "+" rest => parse_unsigned rest
  | _ => parse_unsigned s
  end.

Record Scenario : Type := {
  (* the pipeline files under trained_models and what each pipeline answers *)
  pipelines_on_disk : list (string * PyResult Q);
  (* whether the dataset can be read *)
  dataset_readable : bool;
  (* the candidates that fit, with their errors, and whether the
     LinearRegression fit succeeds *)
  fitting_candidates : list (string * Q);
  linear_fit_succeeds : bool;
  (* the target columns that the dataset lacks *)
  missing_targets : list string
}.

Definition host (sc : Scenario) : Host unit unit (list Q) bool bool (PyResult Q) :=
  {| str_to_float := parse_decimal;
     float_repr := fun _ => "float";
     path_exists := fun path =>
       bool_decide (path ∈ (fun entry => "trained_models/" +:+ entry.1)
                            <$> pipelines_on_disk sc);
     trained_models_dir := "trained_models";
     model_dir := "saved_models";
     dataset_path := "dataset.csv";
     joblib_load_pipeline := fun path =>
       match find (fun entry => bool_decide ("trained_models/" +:+ entry.1 = path))
                  (pipelines_on_disk sc) with
       | Some entry => Ok entry.2
       | None => Raise (LibraryError "unreadable pipeline")
       end;
     joblib_load_model := fun _ => Raise (LibraryError "unreadable model");
     joblib_load_scalers := fun _ => Raise (LibraryError "unreadable scalers");
     joblib_load_encoders := fun _ => Raise (LibraryError "unreadable encoders");
     joblib_load_feature_columns := fun _ => Raise (LibraryError "unreadable columns");
     dump_artifacts := fun _ _ _ _ _ => Ok tt;
     read_csv_dropna := fun _ =>
       if dataset_readable sc then Ok tt else Raise (LibraryError "unreadable dataset");
     derive_columns := fun df => Ok df;
     select_columns := fun df _ => Ok df;
     has_column := fun _ _ => true;
     new_label_encoder := false;
     encoder_fit_transform := fun _ X _ => Ok (true, X);
     encoder_transform := fun _ X _ => Ok X;
     new_standard_scaler := false;
     scaler_fit_transform := fun _ X _ => Ok (true, X);
     scaler_transform := fun _ X _ => Ok X;
     train_test_split := fun _ _ target =>
       if bool_decide (target ∈ missing_targets sc) then Raise (KeyError target)
       else Ok tt;
     fit_and_score := fun name _ =>
       match find (fun entry => bool_decide (entry.1 = name)) (fitting_candidates sc) with
       | Some entry => Ok ([entry.2], entry.2)
       | None => Raise (LibraryError "candidate failed")
       end;
     fit_linear_regression := fun _ =>
       if linear_fit_succeeds sc then Ok [0%Q]
       else Raise (LibraryError "singular matrix");
     evaluate_model := fun _ _ => Ok tt;
     fit_multioutput := fun _ _ => Raise (LibraryError "multi-output fit failed");
     estimator_predict := fun outputs _ => Ok outputs;
     pipeline_predict := fun answer _ => answer;
     single_row_features := fun _ _ _ _ => Raise (KeyError "Base_Cost_Cr") |}.

(** No recommendation and no risk factor, for examples that do not look
    at them. *)
Definition no_recommendations (_ : gmap string PyVal) (_ : gmap string OutVal)
    : PyResult (list Recommendation) := Ok [].
Definition no_factors (_ : gmap string PyVal) (_ : gmap string OutVal)
    : PyResult (gmap string (list RiskFactor)) := Ok Fallback.no_risk_factors.

(** The request of [test_simple.py]. *)
Definition test_project : gmap string PyVal :=
  {[ "projectType" := PyStr "Overhead Line"; "state" := PyStr "Maharashtra";
     "terrain" := PyStr "Plains"; "baseCost" := PyFloat 150;
     "plannedTimeline" := PyFloat 24; "vendorReliability" := PyFloat (8 # 10);
     "materialAvailability" := PyFloat (8 # 10);
     "demandSupplyPressure" := PyStr "Medium" ]}.

(** Only the cost pipeline is on disk. *)
Definition one_pipeline : Scenario :=
  {| pipelines_on_disk := [("cost_pipeline.pkl", Ok 180%Q)];
     dataset_readable := false; fitting_candidates := [];
     linear_fit_succeeds := false; missing_targets := [] |}.

(** Cost and overrun pipelines are on disk; the cost pipeline raises. *)
Definition failing_cost_pipeline : Scenario :=
  {| pipelines_on_disk :=
       [("cost_pipeline.pkl", Raise (LibraryError "unknown category"));
        ("overrun_pipeline.pkl", Ok (25 # 2))];
     dataset_readable := false; fitting_candidates := [];
     linear_fit_succeeds := false; missing_targets := [] |}.




End Example.

(** ** [models/project_model.py]: the columns that prediction reads and writes *)

(** [str.lower] and [str.replace] on one character, for ASCII text (the
    values of the enum columns). *)
Definition ascii_lower (c : Ascii.ascii) : Ascii.ascii :=
  let n := Ascii.nat_of_ascii c in
  if (65 <=? n)%nat && (n <=? 90)%nat then Ascii.ascii_of_nat (n + 32) else c.

Fixpoint str_lower (s : string) : string :=
  match s with
  | EmptyString => EmptyString
  | String c rest => String (ascii_lower c) (str_lower rest)
  end.

Fixpoint str_replace_char (old new : Ascii.ascii) (s : string) : string :=
  match s with
  | EmptyString => EmptyString
  | String c rest =>
      String (if bool_decide (c = old) then new else c) (str_replace_char old new rest)
  end.

Module ProjectModel.

(** A row of [projects]: a nullable column is an [option]; dates, audit
    fields, milestones and the serialised form of [predictions] are left
    out. *)
Record Project : Type := {
  project_id : string;
  project_type : option string;
  terrain : option string;
  base_cost_cr : option Q;
  total_cost_cr : option Q;
  steel_price_index : option Q;
  cement_price_index : option Q;
  labour_wage_rs_per_day : option Q;
  vendor_reliability : option Q;
  material_availability_index : option Q;
  skilled_manpower_pct : option Q;
  demand_supply_pressure : option string;
  planned_timeline_months : option Z;
  timeline_months : option Z;
  regulatory_delay_months : option Q;
  historical_delay_count : option Z;
  avg_annual_rainfall_cm : option Q;
  risk : option OutVal;
  overrun_pct : option Q;
  (* the dict handed to set_predictions, before json.dumps *)
  stored_predictions : option Predictions
}.

(** [x or dflt] on a float column, an integer column and a text column:
    [None], zero and the empty string are falsy. *)
Definition float_or (x : option Q) (dflt : PyVal) : PyVal :=
  match x with
  | Some q => if Qeq_bool q 0 then dflt else PyFloat q
  | None => dflt
  end.

Definition int_or (x : option Z) (dflt : PyVal) : PyVal :=
  match x with
  | Some z => if (z =? 0)%Z then dflt else PyInt z
  | None => dflt
  end.

(** [f(x) if x else dflt] on a text column. *)
Definition text_or (f : string -> string) (x : option string) (dflt : string) : PyVal :=
  match x with
  | Some s => if bool_decide (s = "") then PyStr dflt else PyStr (f s)
  | None => PyStr dflt
  end.

(** [table.get(x, dflt)] on a text column. *)
Definition code_of (table : list (string * Z)) (x : option string) (dflt : Z) : PyVal :=
  match x with
  | Some s => PyInt (table_get table (PyStr s) dflt)
  | None => PyInt dflt
  end.

(** [Project.to_ml_features]. *)
Definition to_ml_features (p : Project) : gmap string PyVal :=
  let project_type_map := [("Substation", 0%Z); ("Overhead Line", 1%Z);
                           ("Underground Cable", 2%Z)] in
  let terrain_map := [("Plains", 0%Z); ("Hilly", 1%Z); ("Desert", 2%Z);
                      ("Coastal", 3%Z); ("Urban", 4%Z); ("Mountainous", 5%Z)] in
  let pressure_map := [("Low", 0%Z); ("Medium", 1%Z); ("High", 2%Z)] in
  list_to_map
    [("Project_Type", code_of project_type_map (project_type p) 0);
     ("Terrain", code_of terrain_map (terrain p) 0);
     ("Base_Cost_Cr", float_or (base_cost_cr p) (PyInt 0));
     ("Steel_Price_Index", float_or (steel_price_index p) (PyInt 100));
     ("Cement_Price_Index", float_or (cement_price_index p) (PyInt 100));
     ("Labour_Wage_RsPerDay", float_or (labour_wage_rs_per_day p) (PyInt 0));
     ("Regulatory_Delay_months", float_or (regulatory_delay_months p) (PyInt 0));
     ("Historical_Delay_Count", int_or (historical_delay_count p) (PyInt 0));
     ("Avg_Annual_Rainfall_cm", float_or (avg_annual_rainfall_cm p) (PyInt 0));
     ("Vendor_Reliability", float_or (vendor_reliability p) (PyFloat (5 # 10)));
     ("Material_Availability_Index",
      float_or (material_availability_index p) (PyFloat (5 # 10)));
     ("Demand_Supply_Pressure", code_of pressure_map (demand_supply_pressure p) 1);
     ("Skilled_Manpower_pct", float_or (skilled_manpower_pct p) (PyInt 50));
     ("Planned_Timeline_months", int_or (planned_timeline_months p) (PyInt 12))].

(** [Project.calculate_cost_overrun_pct]. *)
Definition calculate_cost_overrun_pct (p : Project) : Q :=
  match total_cost_cr p, base_cost_cr p with
  | Some total, Some base =>
      if negb (Qeq_bool total 0) && negb (Qeq_bool base 0)
      then ((total - base) / base * 100)%Q
      else 0%Q
  | _, _ => 0%Q
  end.

(** [Project.calculate_delay_months]. *)
Definition calculate_delay_months (p : Project) : Z :=
  match timeline_months p, planned_timeline_months p with
  | Some actual, Some planned =>
      if negb (actual =? 0)%Z && negb (planned =? 0)%Z then (actual - planned)%Z else 0%Z
  | _, _ => 0%Z
  end.

(** [set_predictions] followed by the assignment to [risk]. *)
Definition store_prediction (o : Outcome) (p : Project) : Project :=
  {| project_id := project_id p; project_type := project_type p; terrain := terrain p;
     base_cost_cr := base_cost_cr p; total_cost_cr := total_cost_cr p;
     steel_price_index := steel_price_index p;
     cement_price_index := cement_price_index p;
     labour_wage_rs_per_day := labour_wage_rs_per_day p;
     vendor_reliability := vendor_reliability p;
     material_availability_index := material_availability_index p;
     skilled_manpower_pct := skilled_manpower_pct p;
     demand_supply_pressure := demand_supply_pressure p;
     planned_timeline_months := planned_timeline_months p;
     timeline_months := timeline_months p;
     regulatory_delay_months := regulatory_delay_months p;
     historical_delay_count := historical_delay_count p;
     avg_annual_rainfall_cm := avg_annual_rainfall_cm p;
     risk := Some (risk_category (predictions o));
     overrun_pct := overrun_pct p;
     stored_predictions := Some (predictions o) |}.

End ProjectModel.

(** [PredictionService._project_to_prediction_format]. *)
Definition _project_to_prediction_format (project : ProjectModel.Project)
    : gmap string PyVal :=
  list_to_map
    [("projectType",
      ProjectModel.text_or (fun s => str_replace_char " " "-" (str_lower s))
        (ProjectModel.project_type project) "substation");
     ("terrainType",
      ProjectModel.text_or str_lower (ProjectModel.terrain project) "plains");
     ("baseEstimatedCost",
      ProjectModel.float_or (ProjectModel.base_cost_cr project) (PyInt 1000));
     ("steelPriceIndex",
      ProjectModel.float_or (ProjectModel.steel_price_index project) (PyInt 100));
     ("cementPriceIndex",
      ProjectModel.float_or (ProjectModel.cement_price_index project) (PyInt 100));
     ("labourWageRate",
      ProjectModel.float_or (ProjectModel.labour_wage_rs_per_day project) (PyInt 400));
     ("vendorReliabilityScore",
      ProjectModel.float_or (ProjectModel.vendor_reliability project) (PyFloat (8 # 10)));
     ("materialAvailabilityIndex",
      ProjectModel.float_or (ProjectModel.material_availability_index project)
        (PyFloat (8 # 10)));
     ("skilledManpowerAvailability",
      ProjectModel.float_or (ProjectModel.skilled_manpower_pct project) (PyInt 70));
     ("regulatoryDelayEstimate",
      ProjectModel.float_or (ProjectModel.regulatory_delay_months project) (PyInt 0));
     ("annualRainfall",
      ProjectModel.float_or (ProjectModel.avg_annual_rainfall_cm project) (PyInt 100));
     ("demandSupplyPressure",
      ProjectModel.text_or str_lower (ProjectModel.demand_supply_pressure project) "medium");
     ("historicalDelayPattern", PyStr "medium");
     ("plannedTimelineMonths",
      ProjectModel.int_or (ProjectModel.planned_timeline_months project) (PyInt 12))].

(** An entry of the dict returned by [bulk_predict_projects]. *)
Inductive BulkEntry : Type :=
| Predicted (o : Outcome)
| NotFound.

Section BulkPrediction.

Context {DataFrame Split Estimator Encoder Scaler Pipeline : Type}.
Context (host : Host DataFrame Split Estimator Encoder Scaler Pipeline).
Context (_generate_recommendations :
           gmap string PyVal -> gmap string OutVal -> PyResult (list Recommendation)).
Context (_analyze_risk_factors :
           gmap string PyVal -> gmap string OutVal -> PyResult (gmap string (list RiskFactor))).

Local Abbreviation Method := (Method Estimator Encoder Scaler Pipeline).

(** The project table, keyed by [project_id], with the batch's results so
    far: the state of the loop of [bulk_predict_projects]. *)
Definition BulkState : Type :=
  gmap string BulkEntry * gmap string ProjectModel.Project.

(** One iteration of the loop over [project_ids]. *)
Definition bulk_step (acc : BulkState) (id : string) : Method BulkState :=
  match acc.2 !! id with
  | Some project =>
      outcome <~ predict_project_outcomes host _generate_recommendations
                   _analyze_risk_factors (_project_to_prediction_format project) ;
      ret (<[id := Predicted outcome]> acc.1,
           <[id := ProjectModel.store_prediction outcome project]> acc.2)
  | None => ret (<[id := NotFound]> acc.1, acc.2)
  end.

Fixpoint bulk_loop (ids : list string) (acc : BulkState) : Method BulkState :=
  match ids with
  | [] => ret acc
  | id :: rest => acc' <~ bulk_step acc id ; bulk_loop rest acc'
  end.

(** [PredictionService.bulk_predict_projects]; its handler logs and
    re-raises.  The result is the dict [results] and the project table
    with the predictions written to the projects. *)
Definition bulk_predict_projects (projects : gmap string ProjectModel.Project)
    (project_ids : list string) : Method BulkState :=
  bulk_loop project_ids (∅, projects).

End BulkPrediction.

(** ** Predicates used in the further properties *)

(** Each of the five key features of the basic assessor is present with a
    value other than [None]. *)
Definition all_key_features_present (features : gmap string PyVal) : Prop :=
  Forall (fun feature => present_not_none features feature = true) Assessors.key_features.

(** A rule adds nothing and names nothing, or adds two or three points
    and names one factor. *)
Definition rule_shape (r : ProductionRisk.Rule) : Prop :=
  (r.1 = 0%Z /\ r.2 = []) \/ ((r.1 = 2%Z \/ r.1 = 3%Z) /\ length r.2 = 1).

(** A method keeps a relation between the service before and after it,
    whether it returns or raises. *)
Definition preserves {Estimator Encoder Scaler Pipeline A : Type}
    (R : relation (MLService Estimator Encoder Scaler Pipeline))
    (m : Method Estimator Encoder Scaler Pipeline A) : Prop :=
  forall s s' r, m s = (s', r) -> R s s'.

(** The production pipelines and their flag are the same. *)
Definition production_untouched {Estimator Encoder Scaler Pipeline : Type}
    (s s' : MLService Estimator Encoder Scaler Pipeline) : Prop :=
  production_pipelines s' = production_pipelines s
  /\ production_models_loaded s' = production_models_loaded s.

(** Only estimators were stored: every name that had an estimator still
    has one, and nothing else changed. *)
Definition estimators_only {Estimator Encoder Scaler Pipeline : Type}
    (s s' : MLService Estimator Encoder Scaler Pipeline) : Prop :=
  production_untouched s s'
  /\ (forall name, is_Some (models s !! name) -> is_Some (models s' !! name))
  /\ models_loaded s' = models_loaded s
  /\ feature_columns s' = feature_columns s
  /\ encoders s' = encoders s
  /\ scalers s' = scalers s.

(** * Properties *)

(** ** Boolean comparisons and Python's [max] and [min] *)

Lemma Qltb_lt x y : Qltb x y = true <-> (x < y)%Q.
Proof. unfold Qltb. rewrite Qlt_alt. destruct (x ?= y)%Q; intuition congruence. Qed.

Lemma Qleb_le x y : Qleb x y = true <-> (x <= y)%Q.
Proof. unfold Qleb. rewrite Qle_alt. destruct (x ?= y)%Q; intuition congruence. Qed.

Lemma Qgtb_gt x y : Qgtb x y = true <-> (y < x)%Q.
Proof. apply Qltb_lt. Qed.

Lemma Qgeb_ge x y : Qgeb x y = true <-> (y <= x)%Q.
Proof. apply Qleb_le. Qed.

Lemma Qgtb_mono x y c : (x <= y)%Q -> Qgtb x c = true -> Qgtb y c = true.
Proof. rewrite !Qgtb_gt. intros. lra. Qed.


Lemma py_min_bounds a b : (py_min a b <= a /\ py_min a b <= b)%Q.
Proof.
  unfold py_min. destruct (Qltb b a) eqn:E.
  - apply Qltb_lt in E. lra.
  - assert (~ (b < a)%Q) by (rewrite <- Qltb_lt; congruence). lra.
Qed.

Lemma py_min_glb a b c : (c <= a)%Q -> (c <= b)%Q -> (c <= py_min a b)%Q.
Proof. unfold py_min. destruct (Qltb b a); auto. Qed.



(** ** Rounding to one decimal *)

Lemma round_half_even_bounds (y : Q) (A B : Z) :
  (inject_Z A <= y)%Q -> (y <= inject_Z B)%Q ->
  (A <= round_half_even y <= B)%Z.
Proof.
  intros HA HB. unfold round_half_even.
  pose proof (Qfloor_le y) as Hlo. pose proof (Qlt_floor y) as Hhi.
  assert (HAf : (A <= Qfloor y)%Z).
  { rewrite <- (Qfloor_Z A). by apply Qfloor_resp_le. }
  assert (HfB : (Qfloor y <= B)%Z).
  { rewrite Zle_Qle. lra. }
  assert (Hstep : (inject_Z (Qfloor y) < y)%Q -> (Qfloor y + 1 <= B)%Z).
  { intros Hlt. assert (Qfloor y < B)%Z; [|lia]. rewrite Zlt_Qlt. lra. }
  destruct (y - inject_Z (Qfloor y) ?= 1 # 2)%Q eqn:E.
  - apply Qeq_alt in E. destruct (Z.even (Qfloor y)); [lia|].
    split; [lia|]. apply Hstep. lra.
  - lia.
  - apply Qgt_alt in E. split; [lia|]. apply Hstep. lra.
Qed.

Lemma py_round1_bounds (x : Q) (A B : Z) :
  (inject_Z A <= x * 10)%Q -> (x * 10 <= inject_Z B)%Q ->
  (inject_Z A / 10 <= py_round1 x /\ py_round1 x <= inject_Z B / 10)%Q.
Proof.
  intros HA HB. unfold py_round1.
  destruct (round_half_even_bounds _ _ _ HA HB) as [H1 H2].
  rewrite Zle_Qle in H1, H2.
  split; apply Qmult_le_compat_r; try done.
Qed.


(** ** The basic risk assessor *)

Lemma cost_overrun_points_mono (p1 p2 : gmap string Q) :
  (BasicRisk.get0 p1 "cost_overrun_pct" <= BasicRisk.get0 p2 "cost_overrun_pct")%Q ->
  (BasicRisk.cost_overrun_points p1 <= BasicRisk.cost_overrun_points p2)%Z.
Proof.
  intros Hle. unfold BasicRisk.cost_overrun_points.
  repeat match goal with
         | |- context [Qgtb ?x ?c] =>
             let E := fresh "E" in
             destruct (Qgtb x c) eqn:E;
             [apply Qgtb_gt in E
             |assert (~ (c < x)%Q) by (rewrite <- Qgtb_gt; congruence); clear E]
         end; try lia; exfalso; lra.
Qed.

Lemma categorize_mono (a b : Z) :
  (a <= b)%Z ->
  BasicRisk.level_rank (BasicRisk.categorize a) <= BasicRisk.level_rank (BasicRisk.categorize b).
Proof.
  intros Hab. unfold BasicRisk.categorize.
  destruct (Z.leb_spec 5 a), (Z.leb_spec 5 b), (Z.leb_spec 3 a), (Z.leb_spec 3 b);
    try lia; vm_compute; lia.
Qed.

(** C7. For two prediction mappings that agree on every key other than
    [cost_overrun_pct], and whose cost-overrun percentage (read with the
    default 0 of [.get]) is larger in the second, the basic risk score of
    the second is at least that of the first, and so is its risk level in
    the order Low <= Medium <= High. *)
Theorem assess_risk_monotone_in_cost_overrun (p1 p2 : gmap string Q) :
  (forall key, key <> "cost_overrun_pct" -> p1 !! key = p2 !! key) ->
  (BasicRisk.get0 p1 "cost_overrun_pct" <= BasicRisk.get0 p2 "cost_overrun_pct")%Q ->
  (BasicRisk.risk_score p1 <= BasicRisk.risk_score p2)%Z
  /\ BasicRisk.level_rank (BasicRisk._assess_risk p1)
     <= BasicRisk.level_rank (BasicRisk._assess_risk p2).
Proof.
  intros Hsame Hle.
  assert (Hscore : (BasicRisk.risk_score p1 <= BasicRisk.risk_score p2)%Z).
  { unfold BasicRisk.risk_score.
    assert (Hd : BasicRisk.delay_points p1 = BasicRisk.delay_points p2).
    { unfold BasicRisk.delay_points, BasicRisk.get0. by rewrite (Hsame "delay_months"). }
    rewrite Hd. pose proof (cost_overrun_points_mono p1 p2 Hle). lia. }
  split; [exact Hscore|]. by apply categorize_mono.
Qed.

Lemma assess_risk_monotone_witness :
  let p1 : gmap string Q := {[ "cost_overrun_pct" := 8%Q; "delay_months" := 4%Q ]} in
  let p2 : gmap string Q := <[ "cost_overrun_pct" := 25%Q ]> p1 in
  (BasicRisk.risk_score p1 <= BasicRisk.risk_score p2)%Z
  /\ BasicRisk.level_rank (BasicRisk._assess_risk p1)
     <= BasicRisk.level_rank (BasicRisk._assess_risk p2).
Proof.
  intros p1 p2. apply (assess_risk_monotone_in_cost_overrun p1 p2).
  - intros key Hkey. unfold p2. by rewrite lookup_insert_ne.
  - vm_compute. discriminate.
Defined.

(** ** The confidence assessors *)

Lemma py_num_number (v : PyVal) : is_number v -> exists q, py_num v = Ok q.
Proof. destruct v; simpl; intros H; try done; eauto. Qed.

Lemma dict_get_number (d : gmap string PyVal) key dflt :
  numeric_if_present d key -> is_number dflt ->
  exists q, py_num (dict_get d key dflt) = Ok q.
Proof.
  intros Hk Hd. apply py_num_number. unfold dict_get.
  destruct (d !! key) eqn:E; simpl; auto.
Qed.

Lemma base_confidence_range (features : gmap string PyVal) :
  (0 <= Assessors.base_confidence features /\ Assessors.base_confidence features <= 100)%Q.
Proof.
  unfold Assessors.base_confidence, Assessors.completeness_factors, Assessors.key_features.
  simpl.
  repeat match goal with
         | |- context [present_not_none ?f ?k] => destruct (present_not_none f k)
         end; vm_compute; split; discriminate.
Qed.

Lemma bonus_range b p : (0 <= p)%Q -> (0 <= Assessors.bonus b p /\ Assessors.bonus b p <= p)%Q.
Proof. intros. destruct b; simpl; lra. Qed.

Lemma completeness_ratio_range (features : gmap string PyVal) :
  (0 <= Assessors.completeness_ratio features * 40)%Q.
Proof.
  unfold Assessors.completeness_ratio, Assessors.completeness_score, Assessors.required_features.
  repeat (rewrite filter_cons; case_decide); rewrite ?filter_nil;
    vm_compute; discriminate.
Qed.

Lemma tier_15_10_5_nonneg x : (0 <= Assessors.tier_15_10_5 x)%Q.
Proof. unfold Assessors.tier_15_10_5. repeat case_match; lra. Qed.

Lemma tier_env_nonneg x : (0 <= Assessors.tier_env x)%Q.
Proof. unfold Assessors.tier_env. repeat case_match; lra. Qed.

Lemma tier_hist_nonneg x : (0 <= Assessors.tier_hist x)%Q.
Proof. unfold Assessors.tier_hist. repeat case_match; lra. Qed.

Lemma geo_points_sum (features : gmap string PyVal) :
  (0 <= Assessors.sum_Q (Assessors.geo_points features))%Q.
Proof. unfold Assessors.geo_points. destruct (Assessors.has_geo features); vm_compute; discriminate. Qed.







(** Outside that domain no score is computed: a compared field that is
    present with the value [None] or with a string makes the comparison
    raise. *)
Example confidence_raises_on_null :
  Assessors._calculate_confidence {[ "Vendor_Reliability" := PyNone ]} = Raise TypeError
  /\ Assessors._calculate_production_confidence {[ "vendorReliability" := PyStr "0.9" ]}
     = Raise TypeError.
Proof. split; reflexivity. Qed.








(** ** The feature normaliser *)

Example convert_frontend_request :
  Normalizer._convert_to_ml_format
    {[ "projectType" := PyStr "overhead-line"; "terrainType" := PyStr "hilly";
       "baseEstimatedCost" := PyFloat 1200; "historicalDelayPattern" := PyStr "severe" ]}
  = {[ "Project_Type" := PyStr "Overhead Line"; "Terrain" := PyStr "Hilly";
       "Base_Cost_Cr" := PyFloat 1200; "Historical_Delay_Count" := PyInt 3;
       "Steel_Price_Index" := PyInt 100; "Cement_Price_Index" := PyInt 100;
       "Regulatory_Delay_months" := PyInt 0; "Avg_Annual_Rainfall_cm" := PyInt 100;
       "Demand_Supply_Pressure" := PyStr "Medium"; "Planned_Timeline_months" := PyInt 12 ]}.
Proof. vm_compute. reflexivity. Qed.












(** ** Examples on the concrete host *)

Example parse_decimal_examples :
  Example.parse_decimal "150" = Some 150%Q
  /\ (exists q, Example.parse_decimal "0.9" = Some q /\ (q == 9 # 10)%Q)
  /\ Example.parse_decimal "abc" = None
  /\ Example.parse_decimal "" = None.
Proof. repeat split. eexists. split; [vm_compute; reflexivity|reflexivity]. Qed.

Example init_one_pipeline :
  production_pipelines (__init__ (Example.host Example.one_pipeline))
  = {[ "cost_prediction" := Ok 180%Q ]}
  /\ production_models_loaded (__init__ (Example.host Example.one_pipeline)) = true.
Proof. split; vm_compute; reflexivity. Qed.

Example predict_test_project :
  (predict (Example.host Example.failing_cost_pipeline) Example.test_project "all"
     (__init__ (Example.host Example.failing_cost_pipeline))).2
  = Ok {[ "cost_prediction" := OFloat 0; "overrun_prediction" := OFloat (25 # 2) ]}.
Proof. vm_compute. reflexivity. Qed.

(** ** Construction and the choice of the inference path *)

Section PathSelection.

Context {DataFrame Split Estimator Encoder Scaler Pipeline : Type}.
Context (host : Host DataFrame Split Estimator Encoder Scaler Pipeline).

Local Abbreviation Service := (MLService Estimator Encoder Scaler Pipeline).

Lemma load_pipeline_file_flag (entry : string * string) (s : Service) :
  exists s', load_pipeline_file host entry s = (s', Ok tt)
             /\ production_models_loaded s' = production_models_loaded s.
Proof.
  unfold load_pipeline_file.
  destruct (path_exists host _); [|by eexists].
  destruct (joblib_load_pipeline host _); by eexists.
Qed.

Lemma load_pipeline_files_flag (entries : list (string * string)) (s : Service) :
  exists s', for_each entries (load_pipeline_file host) s = (s', Ok tt)
             /\ production_models_loaded s' = production_models_loaded s.
Proof.
  revert s. induction entries as [|entry entries IH]; intros s; simpl.
  - by eexists.
  - unfold bind. destruct (load_pipeline_file_flag entry s) as (s1 & -> & H1).
    destruct (IH s1) as (s2 & -> & H2). eexists. split; [done|congruence].
Qed.

Lemma load_production_pipelines_result (s : Service) :
  exists s1,
    production_models_loaded s1 = production_models_loaded s
    /\ load_production_pipelines host s
       = (if negb (size (production_pipelines s1) =? 0)%nat
          then set_production_models_loaded true s1 else s1, Ok tt).
Proof.
  destruct (load_pipeline_files_flag pipeline_files s) as (s1 & Hloop & Hflag).
  exists s1. split; [exact Hflag|].
  unfold load_production_pipelines, try_except, bind. rewrite Hloop.
  unfold read. by destruct (negb (size (production_pipelines s1) =? 0)%nat).
Qed.

(** After construction the flag records that some pipeline is loaded. *)
Lemma init_flag :
  production_models_loaded (__init__ host)
  = negb (size (production_pipelines (__init__ host)) =? 0)%nat.
Proof.
  unfold __init__.
  destruct (load_production_pipelines_result fresh_service) as (s1 & Hflag & ->).
  simpl in Hflag.
  destruct (size (production_pipelines s1) =? 0)%nat eqn:E; simpl; by rewrite ?E.
Qed.

Lemma is_production_ready_iff (s : Service) :
  is_production_ready s = true
  <-> production_models_loaded s = true /\ 2 <= size (production_pipelines s).
Proof.
  unfold is_production_ready. rewrite andb_true_iff, Nat.leb_le. done.
Qed.

Lemma uses_production_iff (s : Service) :
  uses_production s = true
  <-> production_models_loaded s = true /\ 1 <= size (production_pipelines s).
Proof.
  unfold uses_production. rewrite andb_true_iff, Nat.ltb_lt. done.
Qed.

(** C1 (as amended). [is_production_ready] is true iff the loaded flag is
    set and at least two pipelines are loaded; after construction that is
    iff at least two pipelines are loaded.  [predict] does not consult it:
    it uses the production pipelines whenever the flag is set and at least
    one pipeline is loaded, and takes the fallback path otherwise; after
    construction it takes the fallback path iff no pipeline is loaded. *)
Theorem predict_path_selection (features : gmap string PyVal) (prediction_type : string) :
  (forall s : Service,
      is_production_ready s = true
      <-> production_models_loaded s = true /\ 2 <= size (production_pipelines s))
  /\ (forall s : Service,
         uses_production s = true ->
         predict host features prediction_type s = (s, predict_production host s features))
  /\ (forall s : Service,
         uses_production s = false ->
         predict host features prediction_type s
         = predict_fallback host features prediction_type s)
  /\ (is_production_ready (__init__ host) = true
      <-> 2 <= size (production_pipelines (__init__ host)))
  /\ (uses_production (__init__ host) = true
      <-> 1 <= size (production_pipelines (__init__ host))).
Proof.
  split; [exact is_production_ready_iff|].
  split; [intros s Hs; unfold predict, bind, read; simpl; by rewrite Hs|].
  split; [intros s Hs; unfold predict, bind, read; simpl; by rewrite Hs|].
  rewrite is_production_ready_iff, uses_production_iff, init_flag.
  split; (split; [tauto|]); intros Hsize; (split; [|done]);
    destruct (size (production_pipelines (__init__ host))); simpl; done || lia.
Qed.

End PathSelection.

(** C1 as stated fails: with one production pipeline loaded
    [is_production_ready] is false, yet [predict] answers from that
    pipeline and does not take the fallback path. *)
Lemma predict_path_counterexample :
  let h := Example.host Example.one_pipeline in
  let s := __init__ h in
  size (production_pipelines s) = 1
  /\ is_production_ready s = false
  /\ (predict h Example.test_project "all" s).2
     = Ok {[ "cost_prediction" := OFloat 180 ]}
  /\ (predict_fallback h Example.test_project "all" s).2
     = Raise (LibraryError "unreadable dataset")
  /\ predict h Example.test_project "all" s
     <> predict_fallback h Example.test_project "all" s.
Proof.
  intros h s. repeat split; try (vm_compute; reflexivity).
  intros Heq. apply (f_equal snd) in Heq. vm_compute in Heq. discriminate Heq.
Qed.

(** ** Coercion and the cost per planned month *)

Section Coercion.

Context {DataFrame Split Estimator Encoder Scaler Pipeline : Type}.
Context (host : Host DataFrame Split Estimator Encoder Scaler Pipeline).

Local Abbreviation Service := (MLService Estimator Encoder Scaler Pipeline).

(** C2 (as amended). The cost per planned month of the production row is
    the plain quotient of the coerced base cost and planned timeline: with
    the planned timeline absent the denominator is the default 24 and
    nothing raises; with it present the denominator is its value, without
    a floor, so a planned timeline of zero raises [ZeroDivisionError]. *)
Theorem cost_per_planned_month_quotient (features : gmap string PyVal) (base_cost : Q) :
  py_float host (dict_get features "baseCost" (PyFloat 100)) = Ok base_cost ->
  (features !! "plannedTimeline" = None ->
   cost_per_planned_month host features = Ok (base_cost / 24)%Q)
  /\ (forall v planned,
         features !! "plannedTimeline" = Some v ->
         py_float host v = Ok planned ->
         cost_per_planned_month host features
         = if Qeq_bool planned 0 then Raise ZeroDivisionError
           else Ok (base_cost / planned)%Q).
Proof.
  intros Hbase. unfold cost_per_planned_month. rewrite Hbase. simpl. split.
  - intros Habsent. unfold dict_get. rewrite Habsent. reflexivity.
  - intros v planned Hv Hplanned. unfold dict_get at 1. rewrite Hv. simpl.
    rewrite Hplanned. reflexivity.
Qed.




End Coercion.

Lemma cost_per_planned_month_quotient_witness :
  let h := Example.host Example.one_pipeline in
  let features : gmap string PyVal := {[ "baseCost" := PyStr "150" ]} in
  (features !! "plannedTimeline" = None ->
   cost_per_planned_month h features = Ok (150 / 24)%Q)
  /\ (forall v planned,
         features !! "plannedTimeline" = Some v ->
         py_float h v = Ok planned ->
         cost_per_planned_month h features
         = if Qeq_bool planned 0 then Raise ZeroDivisionError
           else Ok (150 / planned)%Q).
Proof.
  intros h features.
  apply (cost_per_planned_month_quotient h features 150). reflexivity.
Defined.

(** C2 as stated fails: a planned timeline of zero is not floored to one;
    the division raises and [predict] lets the exception out. *)
Lemma cost_per_planned_month_counterexample :
  let h := Example.host Example.one_pipeline in
  let features : gmap string PyVal :=
    {[ "baseCost" := PyFloat 150; "plannedTimeline" := PyInt 0 ]} in
  cost_per_planned_month h features = Raise ZeroDivisionError
  /\ cost_per_planned_month h (<["plannedTimeline" := PyFloat 0]> features)
     = Raise ZeroDivisionError
  /\ (predict h features "all" (__init__ h)).2 = Raise ZeroDivisionError
  /\ ~ (exists x, cost_per_planned_month h features = Ok x).
Proof.
  intros h features. repeat split; try (vm_compute; reflexivity).
  intros [x Hx]. vm_compute in Hx. discriminate Hx.
Qed.

(** ** What the normaliser and the production row do to values *)








(** ** The production path of [predict] *)

Section ProductionPath.

Context {DataFrame Split Estimator Encoder Scaler Pipeline : Type}.
Context (host : Host DataFrame Split Estimator Encoder Scaler Pipeline).

Local Abbreviation Service := (MLService Estimator Encoder Scaler Pipeline).

(** On the production path [predict] leaves the service as it is and
    returns one float per loaded pipeline and nothing else: the
    pipeline's prediction, or 0.0 if its call raised. *)
Lemma predict_production_result (s : Service) (features : gmap string PyVal)
    (prediction_type : string) (features_df : list (string * Cell)) :
  uses_production s = true ->
  production_features_df host features = Ok features_df ->
  exists result,
    predict host features prediction_type s = (s, Ok result)
    /\ forall name,
        result !! name
        = (fun pipeline => OFloat (guarded_prediction host features_df pipeline))
            <$> production_pipelines s !! name.
Proof.
  intros Hs Hdf. eexists. split.
  - unfold predict, bind, read. simpl. rewrite Hs. unfold lift, predict_production.
    rewrite Hdf. reflexivity.
  - intros name. unfold production_predictions. by rewrite !lookup_fmap, <- option_fmap_compose.
Qed.

(** A pipeline that raises yields 0.0 for its own target and leaves the
    entry of every other pipeline as that pipeline predicted it. *)
Lemma failure_is_isolated (s : Service) (features : gmap string PyVal)
    (prediction_type : string) (features_df : list (string * Cell))
    (failing : string) (broken : Pipeline) (e : PyExn) :
  uses_production s = true ->
  production_features_df host features = Ok features_df ->
  production_pipelines s !! failing = Some broken ->
  pipeline_predict host broken features_df = Raise e ->
  exists result,
    predict host features prediction_type s = (s, Ok result)
    /\ result !! failing = Some (OFloat 0)
    /\ (forall name pipeline pred,
           production_pipelines s !! name = Some pipeline ->
           pipeline_predict host pipeline features_df = Ok pred ->
           result !! name = Some (OFloat pred))
    /\ (forall name, production_pipelines s !! name = None -> result !! name = None).
Proof.
  intros Hs Hdf Hfailing Hraise.
  destruct (predict_production_result s features prediction_type features_df Hs Hdf)
    as (result & Hresult & Hlookup).
  exists result. split; [exact Hresult|]. repeat split.
  - rewrite Hlookup, Hfailing. simpl. unfold guarded_prediction. by rewrite Hraise.
  - intros name pipeline pred Hname Hpred. rewrite Hlookup, Hname. simpl.
    unfold guarded_prediction. by rewrite Hpred.
  - intros name Hname. by rewrite Hlookup, Hname.
Qed.

End ProductionPath.

(** C3. With the cost and overrun pipelines loaded and the cost pipeline
    raising on the request of [test_simple.py], [predict] returns 0.0 for
    the cost target and the overrun prediction untouched, but the mapping
    holds nothing else: no [risk_assessment] and no [confidence_score],
    because the production branch returns before the two are added.  The
    sibling [_predict_with_production_pipelines] adds both, and the
    response built by [predict_project_outcomes] on this path carries the
    defaults "Medium" and 75 in their place. *)
Theorem production_path_returns_no_assessment :
  let h := Example.host Example.failing_cost_pipeline in
  let s := __init__ h in
  predict h Example.test_project "all" s
  = (s, Ok {[ "cost_prediction" := OFloat 0; "overrun_prediction" := OFloat (25 # 2) ]})
  /\ (forall result,
         (predict h Example.test_project "all" s).2 = Ok result ->
         result !! "risk_assessment" = None /\ result !! "confidence_score" = None)
  /\ (exists result,
         _predict_with_production_pipelines h s
           (delete "demandSupplyPressure" Example.test_project) "all" = Ok result
         /\ result !! "cost_prediction" = Some (OFloat 0)
         /\ result !! "risk_assessment"
            = Some (ORisk "Medium" 2 ["Medium overrun risk"])
         /\ is_Some (result !! "confidence_score"))
  /\ (exists outcome,
         (predict_project_outcomes h Example.no_recommendations Example.no_factors
            {[ "projectType" := PyStr "overhead-line";
               "baseEstimatedCost" := PyFloat 150 ]} s).2 = Ok outcome
         /\ risk_category (predictions outcome) = OStr "Medium"
         /\ confidence_score (predictions outcome) = OFloat 75
         /\ model_version (analysis outcome) = "1.0.0").
Proof.
  intros h s. split; [vm_compute; reflexivity|]. split; [|split].
  - intros result Hresult. vm_compute in Hresult. injection Hresult as <-.
    split; vm_compute; reflexivity.
  - eexists. split; [vm_compute; reflexivity|].
    repeat split; try (vm_compute; reflexivity). eexists. vm_compute. reflexivity.
  - eexists. split; [vm_compute; reflexivity|]. repeat split.
Qed.

(** ** Retraining *)

Section Retraining.

Context {DataFrame Split Estimator Encoder Scaler Pipeline : Type}.
Context (host : Host DataFrame Split Estimator Encoder Scaler Pipeline).

Local Abbreviation Service := (MLService Estimator Encoder Scaler Pipeline).

Lemma preprocessors_added_refl (s : Service) : preprocessors_added s s.
Proof. repeat split; auto. Qed.

Lemma preprocessors_added_trans (s1 s2 s3 : Service) :
  preprocessors_added s1 s2 -> preprocessors_added s2 s3 -> preprocessors_added s1 s3.
Proof.
  intros (A1 & A2 & A3 & A4 & A5 & A6 & A7) (B1 & B2 & B3 & B4 & B5 & B6 & B7).
  repeat split; try congruence; eauto.
Qed.

Lemma add_encoder (s : Service) (col : string) (encoder : Encoder) :
  encoders s !! col = None -> preprocessors_added s (set_encoders (insert col encoder) s).
Proof.
  intros Hnew. repeat split; simpl; auto.
  intros c e Hc. rewrite lookup_insert_ne; [done|]. intros ->. congruence.
Qed.

Lemma replace_added_encoder (s : Service) (col : string) (e1 e2 : Encoder) :
  encoders s !! col = None ->
  preprocessors_added s
    (set_encoders (insert col e2) (set_encoders (insert col e1) s)).
Proof.
  intros Hnew. repeat split; simpl; auto.
  intros c e Hc. rewrite !lookup_insert_ne; [done| |]; intros ->; congruence.
Qed.

Lemma add_scaler (s : Service) (key : string) (scaler : Scaler) :
  scalers s !! key = None -> preprocessors_added s (set_scalers (insert key scaler) s).
Proof.
  intros Hnew. repeat split; simpl; auto.
  intros c e Hc. rewrite lookup_insert_ne; [done|]. intros ->. congruence.
Qed.

Lemma replace_added_scaler (s : Service) (key : string) (c1 c2 : Scaler) :
  scalers s !! key = None ->
  preprocessors_added s
    (set_scalers (insert key c2) (set_scalers (insert key c1) s)).
Proof.
  intros Hnew. repeat split; simpl; auto.
  intros c e Hc. rewrite !lookup_insert_ne; [done| |]; intros ->; congruence.
Qed.

Lemma encode_column_effect (X : DataFrame) (col : string) (s s1 : Service) r :
  encode_column host X col s = (s1, r) -> preprocessors_added s s1.
Proof.
  unfold encode_column, bind, read, assign, lift, ret.
  destruct (has_column host X col).
  - destruct (encoders s !! col) eqn:Hcol.
    + intros [= <- _]. apply preprocessors_added_refl.
    + destruct (encoder_fit_transform host (new_label_encoder host) X col) as [[e X']|e].
      * intros [= <- _]. by apply replace_added_encoder.
      * intros [= <- _]. by apply add_encoder.
  - intros [= <- _]. apply preprocessors_added_refl.
Qed.

Lemma encode_columns_effect (cols : list string) (X : DataFrame) (s s1 : Service) r :
  encode_columns host X cols s = (s1, r) -> preprocessors_added s s1.
Proof.
  revert X s. induction cols as [|col cols IH]; intros X s; simpl.
  - intros [= <- _]. apply preprocessors_added_refl.
  - unfold bind. destruct (encode_column host X col s) as [s2 [X'|e]] eqn:Hcol.
    + intros Hrest. eapply preprocessors_added_trans.
      * by eapply encode_column_effect.
      * by eapply IH.
    + intros [= <- _]. by eapply encode_column_effect.
Qed.

Lemma scale_columns_effect (X : DataFrame) (s s1 : Service) r :
  scale_columns host X s = (s1, r) -> preprocessors_added s s1.
Proof.
  unfold scale_columns, bind, read, assign, lift, ret.
  destruct (scalers s !! "scaler") eqn:Hkey.
  - intros [= <- _]. apply preprocessors_added_refl.
  - destruct (scaler_fit_transform host (new_standard_scaler host) X numerical_columns)
      as [[c X']|e].
    + intros [= <- _]. by apply replace_added_scaler.
    + intros [= <- _]. by apply add_scaler.
Qed.

(** Whatever [prepare_features] returns or raises, the estimators are the
    ones before the call and the feature columns are the training
    columns. *)
Lemma prepare_features_effect (df : DataFrame) (s s1 : Service) r :
  prepare_features host df s = (s1, r) -> registry_after_prepare s s1.
Proof.
  unfold prepare_features. unfold bind at 1. unfold assign at 1.
  set (s0 := set_feature_columns training_feature_columns s).
  assert (Hstart : forall s2, preprocessors_added s0 s2 -> registry_after_prepare s s2).
  { intros s2 (A1 & A2 & A3 & A4 & A5 & A6 & A7). repeat split; auto; congruence. }
  unfold bind at 1, lift.
  destruct (select_columns host df training_feature_columns) as [X|e].
  - unfold bind.
    destruct (encode_columns host X categorical_columns s0) as [s2 [X'|e]] eqn:Henc.
    + intros Hscale. apply Hstart. eapply preprocessors_added_trans.
      * by eapply encode_columns_effect.
      * by eapply scale_columns_effect.
    + intros [= <- _]. apply Hstart. by eapply encode_columns_effect.
  - intros [= <- _]. apply Hstart, preprocessors_added_refl.
Qed.




End Retraining.



(** ** The rule-based fallback *)






(** * Further properties of the modelled code *)

(** ** The assessors *)

Lemma base_confidence_cases (features : gmap string PyVal) :
  (all_key_features_present features /\ (Assessors.base_confidence features == 100)%Q)
  \/ (~ all_key_features_present features /\ (Assessors.base_confidence features <= 80)%Q).
Proof.
  unfold all_key_features_present, Assessors.base_confidence,
    Assessors.completeness_factors, Assessors.key_features.
  simpl.
  destruct (present_not_none features "Base_Cost_Cr") eqn:E1;
  destruct (present_not_none features "Vendor_Reliability") eqn:E2;
  destruct (present_not_none features "Material_Availability_Index") eqn:E3;
  destruct (present_not_none features "Skilled_Manpower_pct") eqn:E4;
  destruct (present_not_none features "Planned_Timeline_months") eqn:E5;
  first
    [ left; split; [by repeat constructor|reflexivity]
    | right; split;
      [ intros Hall;
        repeat match goal with
               | H : Forall _ (_ :: _) |- _ => apply Forall_cons in H; destruct H
               end; congruence
      | vm_compute; discriminate ] ].
Qed.

(** X1. Whenever the basic assessor returns a score, the score is 100
    exactly when all five key features are present with a value other
    than [None]; with one of them missing it is at most 95. *)
Theorem confidence_full_iff_all_key_features (features : gmap string PyVal) (c : Q) :
  Assessors._calculate_confidence features = Ok c ->
  ((c == 100)%Q <-> all_key_features_present features)
  /\ (~ all_key_features_present features -> (c <= 95)%Q).
Proof.
  unfold Assessors._calculate_confidence, py_gt, py_lt.
  destruct (py_num (dict_get features "Vendor_Reliability" (PyInt 0))) as [v|];
    [|discriminate].
  destruct (py_num (dict_get features "Material_Availability_Index" (PyInt 0))) as [m|];
    [|discriminate].
  destruct (py_num (dict_get features "Historical_Delay_Count" (PyInt 0))) as [h|];
    [|discriminate].
  simpl. intros [= <-].
  pose proof (bonus_range (Qgtb v (8 # 10)) 5) as Hv.
  pose proof (bonus_range (Qgtb m (8 # 10)) 5) as Hm.
  pose proof (bonus_range (Qltb h 3) 5) as Hh.
  pose proof (base_confidence_range features) as Hbase.
  set (total := (Assessors.base_confidence features
                 + (0 + Assessors.bonus (Qgtb v (8 # 10)) 5
                    + Assessors.bonus (Qgtb m (8 # 10)) 5
                    + Assessors.bonus (Qltb h 3) 5))%Q) in *.
  destruct (base_confidence_cases features) as [[Hall Hfull] | [Hnot Hpart]].
  - assert (Hcap : py_min 100 total = 100%Q).
    { unfold py_min. destruct (Qltb total 100) eqn:E; [|done].
      apply Qltb_lt in E. unfold total in E. lra. }
    rewrite Hcap. split; [|done]. split; [done|]. intros _. reflexivity.
  - assert (Hle : (py_round1 (py_min 100 total) <= 95)%Q).
    { destruct (py_round1_bounds (py_min 100 total) 0 950) as [_ H2].
      - change (inject_Z 0) with 0%Q.
        assert (0 <= py_min 100 total)%Q by (apply py_min_glb; unfold total; lra). lra.
      - change (inject_Z 950) with 950%Q.
        pose proof (py_min_bounds 100 total) as [_ H]. unfold total in *. lra.
      - eapply Qle_trans; [exact H2|]. vm_compute. discriminate. }
    split; [|done]. split; [|done]. intros Heq. rewrite Heq in Hle. lra.
Qed.

Lemma confidence_full_iff_all_key_features_witness :
  let features : gmap string PyVal :=
    {[ "Base_Cost_Cr" := PyFloat 150; "Vendor_Reliability" := PyFloat (9 # 10);
       "Material_Availability_Index" := PyFloat (7 # 10);
       "Skilled_Manpower_pct" := PyInt 70; "Planned_Timeline_months" := PyInt 24 ]} in
  ((1000 # 10 == 100)%Q <-> all_key_features_present features)
  /\ (~ all_key_features_present features -> (1000 # 10 <= 95)%Q).
Proof.
  intros features.
  apply (confidence_full_iff_all_key_features features (1000 # 10)).
  vm_compute. reflexivity.
Defined.

Lemma completeness_ratio_upper (features : gmap string PyVal) :
  (Assessors.completeness_ratio features * 40 <= 40)%Q.
Proof.
  unfold Assessors.completeness_ratio, Assessors.completeness_score, Assessors.required_features.
  repeat (rewrite filter_cons; case_decide); rewrite ?filter_nil;
    vm_compute; discriminate.
Qed.

Lemma tier_15_10_5_upper x : (Assessors.tier_15_10_5 x <= 15)%Q.
Proof. unfold Assessors.tier_15_10_5. repeat case_match; lra. Qed.

Lemma tier_env_upper x : (Assessors.tier_env x <= 10)%Q.
Proof. unfold Assessors.tier_env. repeat case_match; lra. Qed.

Lemma tier_hist_upper x : (Assessors.tier_hist x <= 10)%Q.
Proof. unfold Assessors.tier_hist. repeat case_match; lra. Qed.

Lemma geo_points_upper (features : gmap string PyVal) :
  (Assessors.sum_Q (Assessors.geo_points features) <= 5)%Q.
Proof.
  unfold Assessors.geo_points. destruct (Assessors.has_geo features); vm_compute; discriminate.
Qed.

(** X2. The production assessor never returns more than 95: completeness
    gives at most 40 points, quality at most 50 and the geographic bonus
    5, so the cap at 100 is never reached. *)
Theorem production_confidence_at_most_95 (features : gmap string PyVal) (c : Q) :
  Assessors._calculate_production_confidence features = Ok c -> (c <= 95)%Q.
Proof.
  unfold Assessors._calculate_production_confidence, Assessors.confidence_factors.
  destruct (py_num (dict_get features "vendorReliability" (PyInt 0))) as [v|];
    [|discriminate].
  destruct (py_num (dict_get features "materialAvailability" (PyInt 0))) as [m|];
    [|discriminate].
  destruct (py_num (dict_get features "envRisk" (PyFloat (3 # 10)))) as [e|];
    [|discriminate].
  destruct (py_num (dict_get features "historicalDelay" (PyInt 1))) as [h|];
    [|discriminate].
  simpl. intros [= <-].
  pose proof (completeness_ratio_range features).
  pose proof (completeness_ratio_upper features).
  pose proof (tier_15_10_5_nonneg v). pose proof (tier_15_10_5_upper v).
  pose proof (tier_15_10_5_nonneg m). pose proof (tier_15_10_5_upper m).
  pose proof (tier_env_nonneg e). pose proof (tier_env_upper e).
  pose proof (tier_hist_nonneg h). pose proof (tier_hist_upper h).
  pose proof (geo_points_sum features). pose proof (geo_points_upper features).
  match goal with
  | |- (py_round1 (py_min 100 ?x) <= 95)%Q =>
      pose proof (py_min_bounds 100 x) as [_ Hmin];
      assert (0 <= py_min 100 x)%Q by (apply py_min_glb; lra);
      destruct (py_round1_bounds (py_min 100 x) 0 950) as [_ Hround]
  end.
  - change (inject_Z 0) with 0%Q. lra.
  - change (inject_Z 950) with 950%Q. lra.
  - eapply Qle_trans; [exact Hround|]. vm_compute. discriminate.
Qed.

Lemma production_confidence_at_most_95_witness :
  let features : gmap string PyVal :=
    {[ "projectType" := PyStr "Substation"; "state" := PyStr "Gujarat";
       "baseCost" := PyFloat 150; "plannedTimeline" := PyInt 24;
       "vendorReliability" := PyFloat (9 # 10);
       "materialAvailability" := PyFloat (9 # 10); "envRisk" := PyFloat (1 # 10);
       "historicalDelay" := PyInt 0; "latitude" := PyFloat 23;
       "longitude" := PyFloat 72 ]} in
  (950 # 10 <= 95)%Q.
Proof.
  intros features.
  apply (production_confidence_at_most_95 features (950 # 10)).
  vm_compute. reflexivity.
Defined.

(** ** The production risk assessor *)

Lemma cost_rule_shape x : rule_shape (ProductionRisk.cost_rule x).
Proof. unfold ProductionRisk.cost_rule, rule_shape. repeat case_match; simpl; auto. Qed.

Lemma overrun_rule_shape x : rule_shape (ProductionRisk.overrun_rule x).
Proof. unfold ProductionRisk.overrun_rule, rule_shape. repeat case_match; simpl; auto. Qed.

Lemma timeline_rule_shape x y : rule_shape (ProductionRisk.timeline_rule x y).
Proof. unfold ProductionRisk.timeline_rule, rule_shape. repeat case_match; simpl; auto. Qed.

Lemma env_rule_shape x : rule_shape (ProductionRisk.env_rule x).
Proof. unfold ProductionRisk.env_rule, rule_shape. repeat case_match; simpl; auto. Qed.

Lemma vendor_rule_shape x : rule_shape (ProductionRisk.vendor_rule x).
Proof. unfold ProductionRisk.vendor_rule, rule_shape. repeat case_match; simpl; auto. Qed.

Lemma rules_total (rules : list ProductionRisk.Rule) :
  Forall rule_shape rules ->
  (2 * Z.of_nat (length (concat (snd <$> rules))) <= foldr Z.add 0 (fst <$> rules)
   <= 3 * Z.of_nat (length (concat (snd <$> rules))))%Z.
Proof.
  induction 1 as [|[points names] rules Hr _ IH]; [simpl; lia|].
  rewrite !fmap_cons. cbn [foldr concat fst snd]. rewrite length_app.
  unfold rule_shape in Hr. cbn [fst snd] in Hr.
  destruct Hr as [[-> ->] | [[-> | ->] Hone]]; cbn [length]; lia.
Qed.

(** X3. Whenever the production risk assessor returns, every named
    factor stands for two or three points of the score and nothing else
    adds points: the score lies between twice and three times the number
    of factors, there are at most five factors, and the level is "Low"
    exactly when no factor is named.  It returns whenever the planned
    timeline, the environmental risk and the vendor reliability are
    numbers or absent. *)
Theorem production_risk_score_and_factors (predictions : gmap string Q)
    (features : gmap string PyVal) :
  (forall level score factors,
      ProductionRisk._assess_production_risk predictions features
      = Ok (ORisk level score factors) ->
      (2 * Z.of_nat (length factors) <= score <= 3 * Z.of_nat (length factors))%Z
      /\ length factors <= 5
      /\ level = ProductionRisk.risk_level score
      /\ (level = "Low" <-> factors = []))
  /\ (numeric_if_present features "plannedTimeline" ->
      numeric_if_present features "envRisk" ->
      numeric_if_present features "vendorReliability" ->
      exists level score factors,
        ProductionRisk._assess_production_risk predictions features
        = Ok (ORisk level score factors)).
Proof.
  split.
  - intros level score factors. unfold ProductionRisk._assess_production_risk.
    destruct (py_num (dict_get features "plannedTimeline" (PyInt 24))) as [planned|];
      [|discriminate].
    destruct (py_num (dict_get features "envRisk" (PyFloat (3 # 10)))) as [env|];
      [|discriminate].
    destruct (py_num (dict_get features "vendorReliability" (PyFloat (8 # 10))))
      as [vendor|]; [|discriminate].
    cbn [res_bind].
    match goal with
    | |- context [foldr Z.add 0%Z (fst <$> ?rules)] => remember rules as rs eqn:Hrs
    end.
    assert (Hshape : Forall rule_shape rs).
    { subst rs.
      repeat (apply Forall_cons; split);
        [apply cost_rule_shape | apply overrun_rule_shape | apply timeline_rule_shape
        |apply env_rule_shape | apply vendor_rule_shape | constructor]. }
    assert (Hcount : length rs = 5) by (by subst rs).
    clear Hrs. pose proof (rules_total rs Hshape) as Htotal.
    assert (Hlen : length (concat (snd <$> rs)) <= length rs).
    { clear Htotal Hcount. induction Hshape as [|[points names] rest Hr _ IH]; [done|].
      rewrite fmap_cons. cbn [concat snd]. rewrite length_app. cbn [length].
      destruct Hr as [[_ Hnames] | [_ Hnames]]; cbn [snd] in Hnames;
        rewrite Hnames; simpl; lia. }
    intros [= <- <- <-].
    set (score := foldr Z.add 0%Z (fst <$> rs)) in *.
    set (factors := concat (snd <$> rs)) in *.
    repeat split; try done; try lia.
    + intros Hlow. unfold ProductionRisk.risk_level in Hlow.
      destruct (Z.leb_spec 6 score); [discriminate|].
      destruct (Z.leb_spec 4 score); [discriminate|].
      destruct (Z.leb_spec 2 score); [discriminate|].
      destruct factors; [done|simpl in Htotal; lia].
    + intros Hnil. rewrite Hnil in Htotal. simpl in Htotal.
      assert (score = 0%Z) as -> by lia. reflexivity.
  - intros Hp He Hv. unfold ProductionRisk._assess_production_risk.
    destruct (dict_get_number features "plannedTimeline" (PyInt 24) Hp I) as [p ->].
    destruct (dict_get_number features "envRisk" (PyFloat (3 # 10)) He I) as [e ->].
    destruct (dict_get_number features "vendorReliability" (PyFloat (8 # 10)) Hv I)
      as [v ->].
    cbn [res_bind]. by do 3 eexists.
Qed.

(** ** Model selection *)

Section ModelSelection.

Context {DataFrame Split Estimator Encoder Scaler Pipeline : Type}.
Context (host : Host DataFrame Split Estimator Encoder Scaler Pipeline).

(** The state of the loop over the candidates: nothing selected and every
    candidate so far failed, or a selected candidate whose error is at most
    that of every candidate that fitted so far. *)
Lemma try_candidates_invariant (split : Split) (names seen : list string)
    (best : option (Estimator * Q)) :
  match best with
  | None => forall name, name ∈ seen -> raises (fit_and_score host name split)
  | Some (model, mse) =>
      (exists name, name ∈ seen /\ fit_and_score host name split = Ok (model, mse))
      /\ forall name model' mse',
          name ∈ seen -> fit_and_score host name split = Ok (model', mse') ->
          (mse <= mse')%Q
  end ->
  match foldl (try_candidate host split) best names with
  | None => forall name, name ∈ (seen ++ names)%list -> raises (fit_and_score host name split)
  | Some (model, mse) =>
      (exists name, name ∈ (seen ++ names)%list
                    /\ fit_and_score host name split = Ok (model, mse))
      /\ forall name model' mse',
          name ∈ (seen ++ names)%list -> fit_and_score host name split = Ok (model', mse') ->
          (mse <= mse')%Q
  end.
Proof.
  revert seen best. induction names as [|candidate names IH]; intros seen best Hbest.
  - rewrite app_nil_r. exact Hbest.
  - simpl. replace (seen ++ candidate :: names)%list with ((seen ++ [candidate]) ++ names)%list
      by (by rewrite <- app_assoc).
    apply IH. unfold try_candidate.
    destruct (fit_and_score host candidate split) as [[model mse]|e] eqn:Hfit.
    + destruct best as [[best_model best_score]|].
      * destruct Hbest as [(name & Hname & Hbest_fit) Hmin].
        destruct (Qltb mse best_score) eqn:Hlt.
        -- apply Qltb_lt in Hlt. split.
           ++ exists candidate. split; [set_solver|done].
           ++ intros name' model' mse' Hin Hfit'.
              apply elem_of_app in Hin as [Hin | Hin].
              ** pose proof (Hmin name' model' mse' Hin Hfit'). lra.
              ** apply list_elem_of_singleton in Hin as ->.
                 rewrite Hfit in Hfit'. injection Hfit' as _ <-. lra.
        -- assert (~ (mse < best_score)%Q) by (rewrite <- Qltb_lt; congruence). split.
           ++ exists name. split; [set_solver|done].
           ++ intros name' model' mse' Hin Hfit'.
              apply elem_of_app in Hin as [Hin | Hin].
              ** by apply (Hmin name' model' mse').
              ** apply list_elem_of_singleton in Hin as ->.
                 rewrite Hfit in Hfit'. injection Hfit' as _ <-. lra.
      * split.
        -- exists candidate. split; [set_solver|done].
        -- intros name' model' mse' Hin Hfit'.
           apply elem_of_app in Hin as [Hin | Hin].
           ++ destruct (Hbest name' Hin) as [e He]. congruence.
           ++ apply list_elem_of_singleton in Hin as ->.
              rewrite Hfit in Hfit'. injection Hfit' as _ <-. lra.
    + destruct best as [[best_model best_score]|].
      * destruct Hbest as [(name & Hname & Hbest_fit) Hmin]. split.
        -- exists name. split; [set_solver|done].
        -- intros name' model' mse' Hin Hfit'.
           apply elem_of_app in Hin as [Hin | Hin].
           ++ by apply (Hmin name' model' mse').
           ++ apply list_elem_of_singleton in Hin as ->. congruence.
      * intros name' Hin. apply elem_of_app in Hin as [Hin | Hin].
        -- by apply Hbest.
        -- apply list_elem_of_singleton in Hin as ->. by exists e.
Qed.

(** X4. [_train_and_select_best_model] returns a candidate that fitted
    and whose error is at most the error of every candidate that fitted;
    it falls back to the LinearRegression fit exactly when all four
    candidates raised, and it raises only when that fit raises too. *)
Theorem best_model_has_least_error (split : Split) :
  (forall model,
      _train_and_select_best_model host split = Ok model ->
      (exists name mse,
          name ∈ models_to_try
          /\ fit_and_score host name split = Ok (model, mse)
          /\ forall name' model' mse',
              name' ∈ models_to_try ->
              fit_and_score host name' split = Ok (model', mse') -> (mse <= mse')%Q)
      \/ ((forall name, name ∈ models_to_try -> raises (fit_and_score host name split))
          /\ fit_linear_regression host split = Ok model))
  /\ (forall e,
         _train_and_select_best_model host split = Raise e ->
         (forall name, name ∈ models_to_try -> raises (fit_and_score host name split))
         /\ fit_linear_regression host split = Raise e)
  /\ ((exists name model mse,
          name ∈ models_to_try /\ fit_and_score host name split = Ok (model, mse)) ->
      exists model, _train_and_select_best_model host split = Ok model).
Proof.
  pose proof (try_candidates_invariant split models_to_try [] None) as Hinv.
  cbn [app] in Hinv.
  assert (Hstart : forall name, name ∈ @nil string -> raises (fit_and_score host name split))
    by (intros name H; by apply elem_of_nil in H).
  specialize (Hinv Hstart). clear Hstart.
  unfold _train_and_select_best_model.
  destruct (foldl (try_candidate host split) None models_to_try) as [[best mse]|].
  - destruct Hinv as [(name & Hname & Hfit) Hmin].
    split; [|split].
    + intros model [= <-]. left. exists name, mse. repeat split; done.
    + intros e He. discriminate He.
    + intros _. by exists best.
  - split; [|split].
    + intros model Hfit. right. done.
    + intros e He. done.
    + intros (name & model & mse & Hname & Hfit).
      destruct (Hinv name Hname) as [e He]. congruence.
Qed.

End ModelSelection.

(** ** Effects of training on the service *)

Section Effects.

Context {DataFrame Split Estimator Encoder Scaler Pipeline : Type}.
Context (host : Host DataFrame Split Estimator Encoder Scaler Pipeline).

Local Abbreviation Service := (MLService Estimator Encoder Scaler Pipeline).
Local Abbreviation Method := (Method Estimator Encoder Scaler Pipeline).

Context (R : relation Service) `{!PreOrder R}.

Lemma preserves_ret {A} (a : A) : preserves R (ret a : Method A).
Proof. intros s s' r [= <- _]. reflexivity. Qed.

Lemma preserves_throw {A} (e : PyExn) : preserves R (throw e : Method A).
Proof. intros s s' r [= <- _]. reflexivity. Qed.

Lemma preserves_lift {A} (x : PyResult A) : preserves R (lift x : Method A).
Proof. intros s s' r [= <- _]. reflexivity. Qed.

Lemma preserves_read {A} (f : Service -> A) : preserves R (read f : Method A).
Proof. intros s s' r [= <- _]. reflexivity. Qed.

Lemma preserves_assign (f : Service -> Service) :
  (forall s, R s (f s)) -> preserves R (assign f : Method unit).
Proof. intros Hf s s' r [= <- _]. apply Hf. Qed.

Lemma preserves_bind {A B} (m : Method A) (k : A -> Method B) :
  preserves R m -> (forall a, preserves R (k a)) -> preserves R (bind m k).
Proof.
  intros Hm Hk s s' r. unfold bind.
  destruct (m s) as [s1 [a|e]] eqn:Hms.
  - intros Hks. transitivity s1; [by eapply Hm|by eapply Hk].
  - intros [= <- _]. by eapply Hm.
Qed.

Lemma preserves_try_except {A} (m : Method A) (handler : PyExn -> Method A) :
  preserves R m -> (forall e, preserves R (handler e)) -> preserves R (try_except m handler).
Proof.
  intros Hm Hh s s' r. unfold try_except.
  destruct (m s) as [s1 [a|e]] eqn:Hms.
  - intros [= <- _]. by eapply Hm.
  - intros Hhs. transitivity s1; [by eapply Hm|by eapply Hh].
Qed.

Lemma preserves_for_each {X} (items : list X) (body : X -> Method unit) :
  (forall x, preserves R (body x)) -> preserves R (for_each items body).
Proof.
  intros Hbody. induction items as [|x items IH]; simpl.
  - apply preserves_ret.
  - apply preserves_bind; [apply Hbody|intros _; exact IH].
Qed.

End Effects.

Section TrainingEffects.

Context {DataFrame Split Estimator Encoder Scaler Pipeline : Type}.
Context (host : Host DataFrame Split Estimator Encoder Scaler Pipeline).

Local Abbreviation Service := (MLService Estimator Encoder Scaler Pipeline).
Local Abbreviation Method := (Method Estimator Encoder Scaler Pipeline).

#[local] Instance production_untouched_preorder :
  PreOrder (@production_untouched Estimator Encoder Scaler Pipeline).
Proof.
  split.
  - intros s. by split.
  - intros s1 s2 s3 [A1 A2] [B1 B2]. split; congruence.
Qed.

#[local] Instance estimators_only_preorder :
  PreOrder (@estimators_only Estimator Encoder Scaler Pipeline).
Proof.
  split.
  - intros s. repeat split; auto.
  - intros s1 s2 s3 (A0 & A1 & A2 & A3 & A4 & A5) (B0 & B1 & B2 & B3 & B4 & B5).
    split; [by transitivity s2|]. repeat split; try congruence. auto.
Qed.

Lemma store_estimator (name : string) (model : Estimator) (s : Service) :
  estimators_only s (set_models (insert name model) s).
Proof.
  repeat split; simpl; auto. intros other Hother.
  destruct (decide (name = other)) as [->|Hne].
  - by rewrite lookup_insert_eq.
  - by rewrite lookup_insert_ne.
Qed.

Lemma train_one_effect (X df : DataFrame) (config : string * string) :
  preserves estimators_only (train_one host X df config).
Proof.
  unfold train_one.
  apply preserves_bind; [apply _|apply preserves_lift; apply _|intros split].
  apply preserves_bind; [apply _|apply preserves_lift; apply _|intros best].
  apply preserves_bind; [apply _| |intros _; apply preserves_lift; apply _].
  apply preserves_assign. apply store_estimator.
Qed.

Lemma train_multioutput_effect (X df : DataFrame) :
  preserves estimators_only (_train_multioutput_model host X df).
Proof.
  unfold _train_multioutput_model. destruct (fit_multioutput host X df).
  - apply preserves_assign. apply store_estimator.
  - apply preserves_ret. apply _.
Qed.

Lemma save_models_effect : preserves estimators_only (save_models host).
Proof.
  unfold save_models.
  apply preserves_bind; [apply _|apply preserves_read; apply _|intros s].
  apply preserves_lift. apply _.
Qed.

Lemma save_models_result (s s' : Service) r :
  save_models host s = (s', r) ->
  s' = s
  /\ r = dump_artifacts host (model_dir host) (models s) (scalers s) (encoders s)
           (feature_columns s).
Proof. unfold save_models, bind, read, lift. simpl. by intros [= <- <-]. Qed.

(** The training loop stores an estimator for every configuration it
    completes. *)
Lemma train_loop_stores (X df : DataFrame) (configs : list (string * string))
    (s s' : Service) :
  for_each configs (train_one host X df) s = (s', Ok tt) ->
  forall name, name ∈ fst <$> configs -> is_Some (models s' !! name).
Proof.
  revert s. induction configs as [|config configs IH]; intros s Hloop name Hname.
  - by apply elem_of_nil in Hname.
  - simpl in Hloop. unfold bind in Hloop.
    destruct (train_one host X df config s) as [s1 [[]|e]] eqn:Hone; [|discriminate].
    rewrite fmap_cons in Hname. apply elem_of_cons in Hname as [-> | Hname].
    + assert (Hstored : is_Some (models s1 !! config.1)).
      { revert Hone. unfold train_one, bind, lift, assign.
        destruct (train_test_split host X df config.2); [|discriminate].
        destruct (_train_and_select_best_model host a); [|discriminate].
        destruct (evaluate_model host a0 a); [|discriminate].
        intros [= <-]. simpl. by rewrite lookup_insert_eq. }
      assert (Hrest : estimators_only s1 s').
      { eapply (preserves_for_each estimators_only); [|exact Hloop].
        intros x. apply train_one_effect. }
      by apply Hrest.
    + by eapply IH.
Qed.

Lemma registry_after_prepare_production (s s1 : Service) :
  registry_after_prepare s s1 -> production_untouched s s1.
Proof. intros (_ & _ & H1 & H2 & _). by split. Qed.

(** X5. A [train_models] that returns has returned [True]; the service
    is then marked loaded, holds an estimator for each of the four
    configured models, has the training columns as feature columns, and,
    when saving was requested, exactly its estimators, scalers, encoders
    and feature columns were written.  A [train_models] that raises
    leaves the loaded flag as it was and loses no estimator.  Either way
    the production pipelines are untouched. *)
Theorem train_models_outcome (path : string) (save : bool) (s s' : Service)
    (r : PyResult bool) :
  train_models host path save s = (s', r) ->
  production_untouched s s'
  /\ (forall name, is_Some (models s !! name) -> is_Some (models s' !! name))
  /\ (forall b, r = Ok b ->
        b = true
        /\ models_loaded s' = true
        /\ feature_columns s' = training_feature_columns
        /\ (forall name, name ∈ fst <$> model_configs -> is_Some (models s' !! name))
        /\ (save = true ->
            dump_artifacts host (model_dir host) (models s') (scalers s') (encoders s')
              (feature_columns s') = Ok tt))
  /\ (forall e, r = Raise e -> models_loaded s' = models_loaded s).
Proof.
  unfold train_models. unfold bind at 1, lift.
  destruct (load_dataset host path) as [df|e0].
  2:{ intros [= <- <-]. repeat split; auto; intros; discriminate. }
  unfold bind at 1.
  destruct (prepare_features host df s) as [s1 [X|e0]] eqn:Hprep.
  2:{ intros [= <- <-]. pose proof (prepare_features_effect host df s s1 _ Hprep) as Hp.
      pose proof (registry_after_prepare_production _ _ Hp) as Hprod.
      destruct Hp as (Hm & Hl & _). repeat split; try apply Hprod; try discriminate.
      - intros name. by rewrite Hm.
      - intros e [= <-]. done. }
  pose proof (prepare_features_effect host df s s1 _ Hprep) as Hp.
  pose proof (registry_after_prepare_production _ _ Hp) as Hprod1.
  destruct Hp as (Hm1 & Hl1 & _ & _ & Hcols1 & _).
  unfold bind at 1.
  destruct (for_each model_configs (train_one host X df) s1) as [s2 [[]|e0]] eqn:Hloop.
  2:{ intros [= <- <-].
      assert (Hloop' : estimators_only s1 s2).
      { eapply (preserves_for_each estimators_only); [|exact Hloop].
        intros x. apply train_one_effect. }
      destruct Hloop' as (Hprod2 & Hkeep2 & Hl2 & _).
      split; [by transitivity s1|]. repeat split; try discriminate.
      - intros name Hname. apply Hkeep2. by rewrite Hm1.
      - intros e [= <-]. congruence. }
  assert (Hloop' : estimators_only s1 s2).
  { eapply (preserves_for_each estimators_only); [|exact Hloop].
    intros x. apply train_one_effect. }
  pose proof (train_loop_stores X df model_configs s1 s2 Hloop) as Hstored.
  unfold bind at 1.
  destruct (_train_multioutput_model host X df s2) as [s3 [[]|e0]] eqn:Hmulti.
  2:{ exfalso. revert Hmulti. unfold _train_multioutput_model.
      destruct (fit_multioutput host X df); discriminate. }
  pose proof (train_multioutput_effect X df s2 s3 _ Hmulti) as Hmulti'.
  assert (H13 : estimators_only s1 s3) by (by transitivity s2).
  destruct H13 as (Hprod3 & Hkeep3 & Hl3 & Hcols3 & Henc3 & Hsc3).
  unfold bind at 1.
  destruct ((if save then save_models host else ret tt) s3) as [s4 [[]|e0]] eqn:Hsave.
  - assert (Hs4 : s4 = s3).
    { destruct save; [by destruct (save_models_result _ _ _ Hsave)|].
      by injection Hsave as <-. }
    subst s4. unfold bind, assign, ret. intros [= <- <-].
    split; [split; simpl; [by rewrite (proj1 Hprod3), (proj1 Hprod1)
                          |by rewrite (proj2 Hprod3), (proj2 Hprod1)]|].
    repeat split; simpl; try discriminate; try congruence.
    + intros name Hname. apply Hkeep3. by rewrite Hm1.
    + intros name Hname. destruct Hmulti' as (_ & Hkeep & _). by apply Hkeep, Hstored.
    + intros ->. destruct (save_models_result _ _ _ Hsave) as [_ Hdump]. by symmetry.
  - assert (Hs4 : s4 = s3).
    { destruct save; [by destruct (save_models_result _ _ _ Hsave)|].
      by injection Hsave as <-. }
    subst s4. intros [= <- <-].
    split; [by transitivity s1|]. repeat split; try discriminate.
    + intros name Hname. apply Hkeep3. by rewrite Hm1.
    + intros e [= <-]. congruence.
Qed.

End TrainingEffects.
